(** * The pull-request tree data provider (src/view/prsTreeDataProvider.ts)

    A shallow embedding of the class [PullRequestsTreeDataProvider]: its
    fields become a record, its methods become state-passing functions in a
    small state-and-exception monad, and everything the class reaches through
    the editor API or through the data manager is read from an explicit
    [World] snapshot taken at the time of the call.

    The methods are [async]; the embedding covers sequential use (one call
    runs to completion before the next one starts), so an [await] is an
    ordinary bind and a rejected promise is a thrown error. *)

From Stdlib Require Import String List Arith Bool Lia.
Import ListNotations.
Local Open Scope string_scope.
Local Open Scope list_scope.

Set Implicit Arguments.

(** ** Errors and results *)

Inductive Error : Type :=
| MkError (message : string).

Inductive result (A : Type) : Type :=
| Ok (value : A)
| Throw (e : Error).

Arguments Ok {A} value.
Arguments Throw {A} e.

(** ** Enumerations imported by the file *)

(** Modelled from the spec: [PRManagerState] is declared in
    github/folderPullRequestManager, which is not among the sources.  The
    spec lists its members as Initializing, NeedsAuthentication and
    RepositoriesLoaded; the provider mentions all three (lines 57, 133,
    157). *)
Module PRManagerState.
Inductive t : Type :=
| Initializing
| NeedsAuthentication
| RepositoriesLoaded.

Definition eqb (a b : t) : bool :=
  match a, b with
  | Initializing, Initializing => true
  | NeedsAuthentication, NeedsAuthentication => true
  | RepositoriesLoaded, RepositoriesLoaded => true
  | _, _ => false
  end.
End PRManagerState.

(** Modelled from the spec: [PRCategoryActionType] is declared in
    treeNodes/categoryNode, which is not among the sources.  The members are
    the closed list of placeholder reasons of the spec; the provider itself
    builds every one of them except NeedsAuthentication. *)
Module PRCategoryActionType.
Inductive t : Type :=
| NoOpenFolder
| NoGitRepositories
| Initializing
| NeedsAuthentication
| NoRemotes
| ConfigureRemotes
| NoMatchingRemotes
| Empty.
End PRCategoryActionType.

(** ** Data owned by the collaborators *)

Record Remote : Type := {
  remoteName : string;
  url : string
}.

Module Repository.
Record State : Type := { remotes : list Remote }.
Record t : Type := { rootUri : string; state : State }.
End Repository.

(** A per-folder manager.  [getGitHubRemotes] is the list the method of that
    name returns when it is called; [repository] is the version-control
    repository the manager wraps. *)
Module FolderRepositoryManager.
Record t : Type := {
  getGitHubRemotes : list Remote;
  repository : Repository.t
}.
End FolderRepositoryManager.

Module PullRequestManager.
Record t : Type := {
  state : PRManagerState.t;
  folderManagers : list FolderRepositoryManager.t
}.
End PullRequestManager.

(** The manager is a mutable object shared with the rest of the extension.
    The provider stores a reference to it; what the reference points to is
    looked up in the [World] on every access. *)
Definition ManagerRef : Type := nat.

Record ITelemetry : Type := { telemetrySink : nat }.

Record TreeView : Type := {
  treeId : string;
  showCollapseAll : bool
}.

Module Uri.
Record t : Type := {
  scheme : string;
  authority : string;
  path : string
}.
End Uri.

(** ** Tree nodes and disposables *)

(** The provider creates two kinds of node itself: placeholders
    ([PRCategoryActionNode], immutable and never disposed by the provider)
    and [WorkspaceFolderNode]s.  The provider later calls [dispose()] on the
    very objects it created, so a workspace-folder node carries the identity
    [oid] of the object allocated by [new].  [CategoryTreeNode] stands for
    the nodes built by the collaborators. *)
Inductive TreeNode : Type :=
| PRCategoryActionNode (view : TreeView) (type : PRCategoryActionType.t)
| WorkspaceFolderNode (oid : nat) (view : TreeView) (uri : string)
    (folderManager : FolderRepositoryManager.t) (telemetry : ITelemetry)
    (isVso : bool)
| CategoryTreeNode (oid : nat) (label : string) (fetchNextPage : bool).

Inductive ConfigurationSetting : Type :=
| FileListLayout
| Queries.

(** Everything the provider pushes on [_disposables] or stores in
    [_childrenDisposables]. *)
Inductive Disposable : Type :=
| TextDocumentContentProviderRegistration (uriScheme : string)
| DecorationProviderRegistration
| CommandRegistration (command : string)
| TreeViewDisposable (view : TreeView)
| ConfigurationListener (setting : ConfigurationSetting)
| ManagerStateListener (prManager : ManagerRef)
| RepositoriesListener (manager : FolderRepositoryManager.t)
| NodeDisposable (node : TreeNode).

Definition Remote_eq_dec (a b : Remote) : {a = b} + {a <> b}.
Proof. decide equality; apply string_dec. Defined.

Definition FolderRepositoryManager_eq_dec
  (a b : FolderRepositoryManager.t) : {a = b} + {a <> b}.
Proof.
  decide equality.
  - decide equality.
    + decide equality. apply (list_eq_dec Remote_eq_dec).
    + apply string_dec.
  - apply (list_eq_dec Remote_eq_dec).
Defined.

Definition TreeView_eq_dec (a b : TreeView) : {a = b} + {a <> b}.
Proof. decide equality; [apply bool_dec | apply string_dec]. Defined.

Definition TreeNode_eq_dec (a b : TreeNode) : {a = b} + {a <> b}.
Proof.
  decide equality;
    try apply bool_dec; try apply string_dec; try apply Nat.eq_dec;
    try apply TreeView_eq_dec; try apply FolderRepositoryManager_eq_dec.
  - decide equality.
  - decide equality. apply Nat.eq_dec.
Defined.

Definition Disposable_eq_dec (a b : Disposable) : {a = b} + {a <> b}.
Proof.
  decide equality;
    try apply string_dec; try apply Nat.eq_dec;
    try apply TreeView_eq_dec; try apply FolderRepositoryManager_eq_dec;
    try apply TreeNode_eq_dec.
  decide equality.
Defined.

(** How often [dispose()] was called on [d] in a log of dispose calls. *)
Definition disposeCount (log : list Disposable) (d : Disposable) : nat :=
  count_occ Disposable_eq_dec log d.

(** ** The world outside the provider *)

(** One snapshot of what the editor API and the data manager answer at the
    time of a call.  [workspaceFolders] and the two settings are [None] when
    the API yields [undefined]; [asExternalUri] resolves to a URI or
    rejects. *)
Record World : Type := {
  workspaceFolders : option (list string);
  showInSCM : option bool;
  remotesSetting : option (list string);
  managers : ManagerRef -> PullRequestManager.t;
  uriScheme : string;
  asExternalUri : Uri.t -> result Uri.t
}.

(** ** The provider's fields *)

(** [_onDidChangeTreeData] records the payloads fired on the emitter, oldest
    first ([None] is [fire()] without argument).  The last three fields are
    instrumentation: the log of [dispose()] calls the provider made, the
    number of [asExternalUri] calls it made, and the next free object
    identity. *)
Record PullRequestsTreeDataProvider : Type := {
  _onDidChangeTreeData : list (option TreeNode);
  _disposables : list Disposable;
  _childrenDisposables : list Disposable;
  _view : TreeView;
  _prManager : option ManagerRef;
  _initialized : bool;
  _isVSO : option bool;
  _telemetry : ITelemetry;
  disposeCalls : list Disposable;
  probeCalls : nat;
  nextObjectId : nat
}.

(** ** The state-and-exception monad of the methods *)

Definition M (A : Type) : Type :=
  PullRequestsTreeDataProvider -> PullRequestsTreeDataProvider * result A.

Definition ret {A} (a : A) : M A := fun this => (this, Ok a).

Definition throw {A} (e : Error) : M A := fun this => (this, Throw e).

Definition bind {A B} (m : M A) (k : A -> M B) : M B :=
  fun this =>
    match m this with
    | (this', Ok a) => k a this'
    | (this', Throw e) => (this', Throw e)
    end.

Definition gets {A} (f : PullRequestsTreeDataProvider -> A) : M A :=
  fun this => (this, Ok (f this)).

Definition modify
  (f : PullRequestsTreeDataProvider -> PullRequestsTreeDataProvider) : M unit :=
  fun this => (f this, Ok tt).

(** An awaited promise of the outside world: its value, or its rejection. *)
Definition await {A} (r : result A) : M A :=
  fun this => (this, r).

Declare Scope provider_scope.
Delimit Scope provider_scope with provider.
Notation "x <- m ;; k" := (bind m (fun x => k))
  (at level 61, m at next level, right associativity) : provider_scope.
Notation "m ;;; k" := (bind m (fun _ => k))
  (at level 61, right associativity) : provider_scope.

(** Field updates ([this.f = v]). *)
Definition set_onDidChangeTreeData v (this : PullRequestsTreeDataProvider) :=
  {| _onDidChangeTreeData := v;
     _disposables := _disposables this;
     _childrenDisposables := _childrenDisposables this;
     _view := _view this;
     _prManager := _prManager this;
     _initialized := _initialized this;
     _isVSO := _isVSO this;
     _telemetry := _telemetry this;
     disposeCalls := disposeCalls this;
     probeCalls := probeCalls this;
     nextObjectId := nextObjectId this |}.

Definition set_disposables v (this : PullRequestsTreeDataProvider) :=
  {| _onDidChangeTreeData := _onDidChangeTreeData this;
     _disposables := v;
     _childrenDisposables := _childrenDisposables this;
     _view := _view this;
     _prManager := _prManager this;
     _initialized := _initialized this;
     _isVSO := _isVSO this;
     _telemetry := _telemetry this;
     disposeCalls := disposeCalls this;
     probeCalls := probeCalls this;
     nextObjectId := nextObjectId this |}.

Definition set_childrenDisposables v (this : PullRequestsTreeDataProvider) :=
  {| _onDidChangeTreeData := _onDidChangeTreeData this;
     _disposables := _disposables this;
     _childrenDisposables := v;
     _view := _view this;
     _prManager := _prManager this;
     _initialized := _initialized this;
     _isVSO := _isVSO this;
     _telemetry := _telemetry this;
     disposeCalls := disposeCalls this;
     probeCalls := probeCalls this;
     nextObjectId := nextObjectId this |}.

Definition set_prManager v (this : PullRequestsTreeDataProvider) :=
  {| _onDidChangeTreeData := _onDidChangeTreeData this;
     _disposables := _disposables this;
     _childrenDisposables := _childrenDisposables this;
     _view := _view this;
     _prManager := v;
     _initialized := _initialized this;
     _isVSO := _isVSO this;
     _telemetry := _telemetry this;
     disposeCalls := disposeCalls this;
     probeCalls := probeCalls this;
     nextObjectId := nextObjectId this |}.

Definition set_initialized v (this : PullRequestsTreeDataProvider) :=
  {| _onDidChangeTreeData := _onDidChangeTreeData this;
     _disposables := _disposables this;
     _childrenDisposables := _childrenDisposables this;
     _view := _view this;
     _prManager := _prManager this;
     _initialized := v;
     _isVSO := _isVSO this;
     _telemetry := _telemetry this;
     disposeCalls := disposeCalls this;
     probeCalls := probeCalls this;
     nextObjectId := nextObjectId this |}.

Definition set_isVSO v (this : PullRequestsTreeDataProvider) :=
  {| _onDidChangeTreeData := _onDidChangeTreeData this;
     _disposables := _disposables this;
     _childrenDisposables := _childrenDisposables this;
     _view := _view this;
     _prManager := _prManager this;
     _initialized := _initialized this;
     _isVSO := v;
     _telemetry := _telemetry this;
     disposeCalls := disposeCalls this;
     probeCalls := probeCalls this;
     nextObjectId := nextObjectId this |}.

Definition set_disposeCalls v (this : PullRequestsTreeDataProvider) :=
  {| _onDidChangeTreeData := _onDidChangeTreeData this;
     _disposables := _disposables this;
     _childrenDisposables := _childrenDisposables this;
     _view := _view this;
     _prManager := _prManager this;
     _initialized := _initialized this;
     _isVSO := _isVSO this;
     _telemetry := _telemetry this;
     disposeCalls := v;
     probeCalls := probeCalls this;
     nextObjectId := nextObjectId this |}.

Definition set_probeCalls v (this : PullRequestsTreeDataProvider) :=
  {| _onDidChangeTreeData := _onDidChangeTreeData this;
     _disposables := _disposables this;
     _childrenDisposables := _childrenDisposables this;
     _view := _view this;
     _prManager := _prManager this;
     _initialized := _initialized this;
     _isVSO := _isVSO this;
     _telemetry := _telemetry this;
     disposeCalls := disposeCalls this;
     probeCalls := v;
     nextObjectId := nextObjectId this |}.

Definition set_nextObjectId v (this : PullRequestsTreeDataProvider) :=
  {| _onDidChangeTreeData := _onDidChangeTreeData this;
     _disposables := _disposables this;
     _childrenDisposables := _childrenDisposables this;
     _view := _view this;
     _prManager := _prManager this;
     _initialized := _initialized this;
     _isVSO := _isVSO this;
     _telemetry := _telemetry this;
     disposeCalls := disposeCalls this;
     probeCalls := probeCalls this;
     nextObjectId := v |}.

(** ** Primitive effects *)

(** [emitter.fire(payload)]. *)
Definition fire (payload : option TreeNode) : M unit :=
  modify (fun this =>
    set_onDidChangeTreeData (_onDidChangeTreeData this ++ [payload]) this).

(** [this._disposables.push(...ds)]. *)
Definition push_disposables (ds : list Disposable) : M unit :=
  modify (fun this => set_disposables (_disposables this ++ ds) this).

(** [ds.forEach(dispose => dispose.dispose())]: one dispose call per element,
    in list order. *)
Definition dispose_all (ds : list Disposable) : M unit :=
  modify (fun this => set_disposeCalls (disposeCalls this ++ ds) this).

(** [String.prototype.endsWith]. *)
Definition endsWith (s searchString : string) : bool :=
  let n := String.length s in
  let k := String.length searchString in
  Nat.leb k n && String.eqb (substring (n - k) k s) searchString.

(** [folderManagers.map(folderManager => new WorkspaceFolderNode(view,
    folderManager.repository.rootUri, folderManager, telemetry, isVso))],
    the objects being allocated at [oid], [oid + 1], ... in list order. *)
Fixpoint newWorkspaceFolderNodes (oid : nat) (view : TreeView)
  (telemetry : ITelemetry) (isVso : bool)
  (folderManagers : list FolderRepositoryManager.t) : list TreeNode :=
  match folderManagers with
  | [] => []
  | folderManager :: rest =>
      WorkspaceFolderNode oid view
        (Repository.rootUri (FolderRepositoryManager.repository folderManager))
        folderManager telemetry isVso
      :: newWorkspaceFolderNodes (S oid) view telemetry isVso rest
  end.

(** The two filters of [getChildren]. *)
Definition hasGitHubRemotes (manager : FolderRepositoryManager.t) : bool :=
  Nat.ltb 0 (length (FolderRepositoryManager.getGitHubRemotes manager)).

Definition hasRepositoryRemotes (manager : FolderRepositoryManager.t) : bool :=
  Nat.ltb 0
    (length (Repository.remotes
               (Repository.state (FolderRepositoryManager.repository manager)))).

(** The URI the classifier asks the editor to externalise:
    [Uri.parse(uriScheme + "://vscode.github-authentication")]. *)
Definition callbackUriOf (w : World) : Uri.t :=
  {| Uri.scheme := uriScheme w;
     Uri.authority := "vscode.github-authentication";
     Uri.path := "" |}.

(** The suffix test of [isVSO] (lines 108-110). *)
Definition isWorkspacesAuthority (authority : string) : bool :=
  endsWith authority "workspaces.github.com"
  || endsWith authority "workspaces-dev.github.com"
  || endsWith authority "workspaces-ppe.github.com".

(** What a JavaScript engine throws on a property access through
    [undefined]. *)
Definition TypeError : Error :=
  MkError "TypeError: cannot read properties of undefined".

(** Calls the host and the extension make on the provider. *)
Inductive Call : Type :=
| CallInitialize (prManager : ManagerRef)
| CallGetChildren (element : option TreeNode)
| CallRefresh (node : option TreeNode)
| CallDispose.

Definition isRootPass (c : Call) : bool :=
  match c with
  | CallGetChildren None => true
  | _ => false
  end.

(** ** Methods that do not reach into tree nodes *)

Local Open Scope provider_scope.

(** [constructor(telemetry)], lines 32-81.  The command and listener
    callbacks only run when the host invokes them later; what the
    constructor itself does is register them, create the view and start with
    no tracked children. *)
Definition constructor (w : World) (telemetry : ITelemetry)
  : PullRequestsTreeDataProvider :=
  let treeId :=
    match showInSCM w with
    | Some true => "pr:scm"
    | _ => "pr:github"
    end in
  let view := {| treeId := treeId; showCollapseAll := true |} in
  {| _onDidChangeTreeData := [];
     _disposables :=
       [ TextDocumentContentProviderRegistration "pr";
         DecorationProviderRegistration;
         CommandRegistration "pr.refreshList";
         CommandRegistration "pr.loadMore";
         TreeViewDisposable view;
         CommandRegistration "pr.configurePRViewlet";
         ConfigurationListener FileListLayout ];
     _childrenDisposables := [];
     _view := view;
     _prManager := None;
     _initialized := false;
     _isVSO := None;
     _telemetry := telemetry;
     disposeCalls := [];
     probeCalls := 0;
     nextObjectId := 0 |}.

(** [initializeCategories()], lines 116-122. *)
Definition initializeCategories : M unit :=
  push_disposables [ConfigurationListener Queries].

(** [refresh(node?)], lines 124-126. *)
Definition refresh (node : option TreeNode) : M unit :=
  match node with
  | Some n => fire (Some n)
  | None => fire None
  end.

Definition alreadyInitialized : Error :=
  MkError "Tree has already been initialized!".

(** [initialize(prManager)], lines 83-100. *)
Definition initialize (w : World) (prManager : ManagerRef) : M unit :=
  initialized <- gets _initialized ;;
  if initialized then throw alreadyInitialized
  else
    modify (set_initialized true) ;;;
    modify (set_prManager (Some prManager)) ;;;
    push_disposables [ManagerStateListener prManager] ;;;
    push_disposables
      (map RepositoriesListener
         (PullRequestManager.folderManagers (managers w prManager))) ;;;
    initializeCategories ;;;
    refresh None.

(** [isVSO()], lines 102-114.  The probe is counted when it is started,
    whether it then resolves or rejects. *)
Definition isVSO (w : World) : M bool :=
  cached <- gets _isVSO ;;
  match cached with
  | Some b => ret b
  | None =>
      modify (fun this => set_probeCalls (S (probeCalls this)) this) ;;;
      callbackUri <- await (asExternalUri w (callbackUriOf w)) ;;
      let isVSO := isWorkspacesAuthority (Uri.authority callbackUri) in
      modify (set_isVSO (Some isVSO)) ;;;
      ret isVSO
  end.

(** A run of sequential [isVSO()] calls, one per world snapshot, with the
    outcome of each. *)
Fixpoint isVSO_each (ws : list World) (this : PullRequestsTreeDataProvider)
  : PullRequestsTreeDataProvider * list (result bool) :=
  match ws with
  | [] => (this, [])
  | w :: rest =>
      let (this1, r) := isVSO w this in
      let (this2, rs) := isVSO_each rest this1 in
      (this2, r :: rs)
  end.

(** [needsRemotes()], lines 132-146.  An empty array is truthy in
    JavaScript, so the setting counts as configured whenever it is not
    [undefined]. *)
Definition needsRemotes (w : World) : M (list TreeNode) :=
  prManager <- gets _prManager ;;
  view <- gets _view ;;
  match prManager with
  | None => throw TypeError
  | Some m =>
      if PRManagerState.eqb (PullRequestManager.state (managers w m))
           PRManagerState.NeedsAuthentication
      then ret []
      else
        match remotesSetting w with
        | Some _ =>
            ret [ PRCategoryActionNode view PRCategoryActionType.NoMatchingRemotes;
                  PRCategoryActionNode view PRCategoryActionType.ConfigureRemotes ]
        | None =>
            ret [ PRCategoryActionNode view PRCategoryActionType.NoRemotes ]
        end
  end.

(** [dispose()], lines 193-195. *)
Definition dispose : M unit :=
  ds <- gets _disposables ;;
  dispose_all ds.

(** ** The configuration command *)

(** A command the provider asks the editor to execute:
    [vscode.commands.executeCommand(command, ...args)]. *)
Inductive HostCommand : Type :=
| ExecuteCommand (command : string) (args : list string).

(** The items offered by the quick pick of [pr.configurePRViewlet]
    (line 58). *)
Definition configurationItems (isLoggedIn : bool) : list string :=
  ["Configure Remotes..."; "Configure Queries..."]
  ++ (if isLoggedIn then ["Sign out of GitHub..."] else []).

(** The callback registered for [pr.configurePRViewlet], lines 56-73.
    [showQuickPick] is the user's answer to the items shown ([None] when the
    pick is dismissed); [publisher] and [name] are the two fields read from
    package.json.  The result is the command handed to the editor, if
    any. *)
Definition configurePRViewlet (w : World) (publisher name : string)
  (showQuickPick : list string -> option string) : M (option HostCommand) :=
  prManager <- gets _prManager ;;
  match prManager with
  | None => throw TypeError
  | Some m =>
      let isLoggedIn :=
        PRManagerState.eqb (PullRequestManager.state (managers w m))
          PRManagerState.RepositoriesLoaded in
      let configuration := showQuickPick (configurationItems isLoggedIn) in
      let extensionId := (publisher ++ "." ++ name)%string in
      match configuration with
      | None => ret None
      | Some choice =>
          if String.eqb choice "Configure Queries..." then
            ret (Some (ExecuteCommand "workbench.action.openSettings"
                         [("@ext:" ++ extensionId ++ " queries")%string]))
          else if String.eqb choice "Configure Remotes..." then
            ret (Some (ExecuteCommand "workbench.action.openSettings"
                         [("@ext:" ++ extensionId ++ " remotes")%string]))
          else if String.eqb choice "Sign out of GitHub..." then
            ret (Some (ExecuteCommand "auth.signout" []))
          else ret None
      end
  end.

(** A user who always takes the last item offered. *)
Definition pickLast (items : list string) : option string :=
  last (map Some items) None.

(** ** Sample data *)

Definition origin : Remote :=
  {| remoteName := "origin"; url := "https://github.com/octo/app.git" |}.

Definition folderWithRemote : FolderRepositoryManager.t :=
  {| FolderRepositoryManager.getGitHubRemotes := [origin];
     FolderRepositoryManager.repository :=
       {| Repository.rootUri := "file:///work/app";
          Repository.state := {| Repository.remotes := [origin] |} |} |}.

Definition folderWithoutRemote : FolderRepositoryManager.t :=
  {| FolderRepositoryManager.getGitHubRemotes := [];
     FolderRepositoryManager.repository :=
       {| Repository.rootUri := "file:///work/notes";
          Repository.state := {| Repository.remotes := [] |} |} |}.

(** A folder whose manager still lists a GitHub remote after the repository
    lost all of its remotes. *)
Definition folderWithStaleRemote : FolderRepositoryManager.t :=
  {| FolderRepositoryManager.getGitHubRemotes := [origin];
     FolderRepositoryManager.repository :=
       {| Repository.rootUri := "file:///work/app";
          Repository.state := {| Repository.remotes := [] |} |} |}.

Definition sampleTelemetry : ITelemetry := {| telemetrySink := 0 |}.

Definition localAuthority : Uri.t :=
  {| Uri.scheme := "vscode";
     Uri.authority := "vscode.github-authentication";
     Uri.path := "" |}.

Definition workspacesAuthority : Uri.t :=
  {| Uri.scheme := "https";
     Uri.authority := "online.workspaces.github.com";
     Uri.path := "" |}.

(** A desktop world with the given manager state and folder managers, no
    remotes setting, and a probe that resolves locally. *)
Definition worldOf (st : PRManagerState.t)
  (fms : list FolderRepositoryManager.t) : World :=
  {| workspaceFolders := Some (map (fun fm =>
         Repository.rootUri (FolderRepositoryManager.repository fm)) fms);
     showInSCM := None;
     remotesSetting := None;
     managers := fun _ =>
       {| PullRequestManager.state := st;
          PullRequestManager.folderManagers := fms |};
     uriScheme := "vscode";
     asExternalUri := fun _ => Ok localAuthority |}.

Definition withRemotesSetting (setting : option (list string)) (w : World)
  : World :=
  {| workspaceFolders := workspaceFolders w;
     showInSCM := showInSCM w;
     remotesSetting := setting;
     managers := managers w;
     uriScheme := uriScheme w;
     asExternalUri := asExternalUri w |}.

Definition withProbe (probe : result Uri.t) (w : World) : World :=
  {| workspaceFolders := workspaceFolders w;
     showInSCM := showInSCM w;
     remotesSetting := remotesSetting w;
     managers := managers w;
     uriScheme := uriScheme w;
     asExternalUri := fun _ => probe |}.

Definition networkDown : Error := MkError "asExternalUri rejected".

Definition twoFolders : World :=
  worldOf PRManagerState.RepositoriesLoaded
    [folderWithRemote; folderWithoutRemote].

Definition oneFolder : World :=
  worldOf PRManagerState.RepositoriesLoaded [folderWithRemote].

Definition noRemotesAnywhere : World :=
  worldOf PRManagerState.RepositoriesLoaded [folderWithoutRemote].

(** Collaborator behaviour used in the examples: a folder shows one
    category, and a node has one child category. *)
Definition sampleCategoryTreeNodes (_ : World)
  (fm : FolderRepositoryManager.t) (_ : ITelemetry) (_ : bool)
  (_ : TreeView) : result (list TreeNode) :=
  Ok [CategoryTreeNode 1000 "All" false].

Definition sampleNodeChildren (_ : World) (_ : TreeNode)
  : result (list TreeNode) :=
  Ok [CategoryTreeNode 2000 "Created By Me" false].

(** The provider of a two-folder workspace, constructed and initialised. *)
Definition sampleProvider : PullRequestsTreeDataProvider :=
  fst (initialize twoFolders 0 (constructor twoFolders sampleTelemetry)).

(** ** The tree contract *)

Section Provider.

(** [WorkspaceFolderNode.getCategoryTreeNodes(folderManager, telemetry,
    isVso, view)] and [element.getChildren()] belong to files outside the
    provider; they are parameters, and every result below holds for all
    behaviours they may have. *)
Variable getCategoryTreeNodes :
  World -> FolderRepositoryManager.t -> ITelemetry -> bool -> TreeView ->
  result (list TreeNode).
Variable TreeNode_getChildren : World -> TreeNode -> result (list TreeNode).

(** [getChildren(element?)], lines 148-187. *)
Definition getChildren (w : World) (element : option TreeNode)
  : M (list TreeNode) :=
  prManager <- gets _prManager ;;
  view <- gets _view ;;
  match prManager with
  | None =>
      match workspaceFolders w with
      | None =>
          ret [PRCategoryActionNode view PRCategoryActionType.NoOpenFolder]
      | Some _ =>
          ret [PRCategoryActionNode view PRCategoryActionType.NoGitRepositories]
      end
  | Some m =>
      let folderManagers := PullRequestManager.folderManagers (managers w m) in
      if PRManagerState.eqb (PullRequestManager.state (managers w m))
           PRManagerState.Initializing
      then ret [PRCategoryActionNode view PRCategoryActionType.Initializing]
      else if Nat.eqb (length (filter hasGitHubRemotes folderManagers)) 0
      then needsRemotes w
      else
        match element with
        | None =>
            children <- gets _childrenDisposables ;;
            (if Nat.eqb (length children) 0 then ret tt
             else dispose_all children) ;;;
            telemetry <- gets _telemetry ;;
            if Nat.eqb (length folderManagers) 1 then
              match nth_error folderManagers 0 with
              | Some folderManager =>
                  isVso <- isVSO w ;;
                  await (getCategoryTreeNodes w folderManager telemetry
                           isVso view)
              | None => throw TypeError (* not reached: the length is 1 *)
              end
            else
              isVso <- isVSO w ;;
              oid <- gets nextObjectId ;;
              let result :=
                newWorkspaceFolderNodes oid view telemetry isVso
                  folderManagers in
              modify (set_nextObjectId (oid + length folderManagers)) ;;;
              modify (set_childrenDisposables (map NodeDisposable result)) ;;;
              ret result
        | Some element =>
            if Nat.eqb (length (filter hasRepositoryRemotes folderManagers)) 0
            then ret [PRCategoryActionNode view PRCategoryActionType.Empty]
            else await (TreeNode_getChildren w element)
        end
  end.

(** One call on the provider, keeping the state it leaves behind. *)
Definition step (w : World) (c : Call) (this : PullRequestsTreeDataProvider)
  : PullRequestsTreeDataProvider :=
  match c with
  | CallInitialize prManager => fst (initialize w prManager this)
  | CallGetChildren element => fst (getChildren w element this)
  | CallRefresh node => fst (refresh node this)
  | CallDispose => fst (dispose this)
  end.

(** A history of calls, each made in the world of its time. *)
Fixpoint run (history : list (World * Call))
  (this : PullRequestsTreeDataProvider) : PullRequestsTreeDataProvider :=
  match history with
  | [] => this
  | (w, c) :: rest => run rest (step w c this)
  end.

(** ** Vocabulary of the properties *)

(** No folder manager reports a remote hosted by GitHub. *)
Definition noGitHubRemotes (fms : list FolderRepositoryManager.t) : Prop :=
  Forall (fun fm => FolderRepositoryManager.getGitHubRemotes fm = []) fms.

(** No folder manager's repository state reports any remote. *)
Definition noRepositoryRemotes (fms : list FolderRepositoryManager.t) : Prop :=
  Forall (fun fm =>
    Repository.remotes
      (Repository.state (FolderRepositoryManager.repository fm)) = []) fms.

(** The guards of lines 149, 157 and 161 all fall through: the call
    reaches the part of [getChildren] that looks at [element]. *)
Definition reachesSubtree (w : World) (this : PullRequestsTreeDataProvider)
  : bool :=
  match _prManager this with
  | None => false
  | Some m =>
      negb (PRManagerState.eqb (PullRequestManager.state (managers w m))
              PRManagerState.Initializing)
      && negb (Nat.eqb
                 (length (filter hasGitHubRemotes
                    (PullRequestManager.folderManagers (managers w m)))) 0)
  end.

(** No call of the history is a root pass that reaches the subtree part
    of [getChildren]. *)
Fixpoint noSubtreePass (history : list (World * Call))
  (this : PullRequestsTreeDataProvider) : bool :=
  match history with
  | [] => true
  | (w, c) :: rest =>
      negb (isRootPass c && reachesSubtree w this)
      && noSubtreePass rest (step w c this)
  end.

(** A root pass returns a placeholder result: no manager is attached, or
    the manager is Initializing, or no folder manager reports a GitHub
    remote (the needs-remotes branch). *)
Definition placeholderPass (w : World) (this : PullRequestsTreeDataProvider)
  : Prop :=
  match _prManager this with
  | None => True
  | Some m =>
      PullRequestManager.state (managers w m) = PRManagerState.Initializing
      \/ noGitHubRemotes (PullRequestManager.folderManagers (managers w m))
  end.

(** A root pass installs a generation: it reaches the subtree part, takes
    the branch of lines 173-176 (not exactly one folder manager) and its
    environment classification resolves, so that line 178 runs. *)
Definition installsGeneration (w : World)
  (this : PullRequestsTreeDataProvider) : bool :=
  reachesSubtree w this
  && match _prManager this with
     | None => false
     | Some m =>
         negb (Nat.eqb
                 (length (PullRequestManager.folderManagers (managers w m))) 1)
     end
  && match _isVSO this, asExternalUri w (callbackUriOf w) with
     | Some _, _ => true
     | None, Ok _ => true
     | None, Throw _ => false
     end.

(** Object-identity bookkeeping: a disposable is older than [n] when it is
    not a node, or is a workspace-folder node allocated below [n]. *)
Definition olderThan (n : nat) (d : Disposable) : Prop :=
  match d with
  | NodeDisposable (WorkspaceFolderNode oid _ _ _ _ _) => oid < n
  | NodeDisposable _ => False
  | _ => True
  end.

Definition notNode (d : Disposable) : Prop :=
  match d with
  | NodeDisposable _ => False
  | _ => True
  end.

(** What holds of every provider state a history of calls can reach. *)
Definition wellTracked (this : PullRequestsTreeDataProvider) : Prop :=
  Forall (olderThan (nextObjectId this)) (_childrenDisposables this)
  /\ Forall (olderThan (nextObjectId this)) (disposeCalls this)
  /\ Forall notNode (_disposables this).

(** A root pass that reaches the subtree part without installing a
    generation: the single-folder branch (which returns at line 172), or a
    classification that rejects at line 174. *)
Definition disposesWithoutInstalling (w : World)
  (this : PullRequestsTreeDataProvider) : bool :=
  reachesSubtree w this && negb (installsGeneration w this).

(** The provider after root passes in the given worlds, one after the
    other. *)
Definition rootPasses (ws : list World)
  (this : PullRequestsTreeDataProvider) : PullRequestsTreeDataProvider :=
  run (map (fun w => (w, CallGetChildren None)) ws) this.

(** Every one of these root passes reaches the subtree part without
    installing a generation. *)
Fixpoint allDisposeWithoutInstalling (ws : list World)
  (this : PullRequestsTreeDataProvider) : bool :=
  match ws with
  | [] => true
  | w :: rest =>
      disposesWithoutInstalling w this
      && allDisposeWithoutInstalling rest (step w (CallGetChildren None) this)
  end.

Definition isInitializeCall (c : Call) : bool :=
  match c with
  | CallInitialize _ => true
  | _ => false
  end.

(** The history contains no call of [initialize]. *)
Definition withoutInitialize (history : list (World * Call)) : bool :=
  forallb (fun wc => negb (isInitializeCall (snd wc))) history.

(** The payloads of the [refresh] calls of a history, in call order. *)
Fixpoint refreshPayloads (history : list (World * Call))
  : list (option TreeNode) :=
  match history with
  | [] => []
  | (_, CallRefresh node) :: rest => node :: refreshPayloads rest
  | _ :: rest => refreshPayloads rest
  end.

(** The subscriptions a successful [initialize] adds, in the order of lines
    90-98 and 117. *)
Definition initializeSubscriptions (w : World) (prManager : ManagerRef)
  : list Disposable :=
  [ManagerStateListener prManager]
  ++ map RepositoriesListener
       (PullRequestManager.folderManagers (managers w prManager))
  ++ [ConfigurationListener Queries].

(** The provider after lines 166-168 of a root pass. *)
Definition disposeChildren (this : PullRequestsTreeDataProvider)
  : PullRequestsTreeDataProvider :=
  if Nat.eqb (length (_childrenDisposables this)) 0 then this
  else set_disposeCalls (disposeCalls this ++ _childrenDisposables this) this.

(** ** Basic facts *)

Unset Implicit Arguments.

Ltac unfold_bind :=
  unfold dispose_all, bind, gets, modify, ret, throw, await in *.

Ltac unfold_monad :=
  unfold initialize, isVSO, needsRemotes, dispose, refresh,
    initializeCategories, fire, push_disposables, dispose_all,
    bind, gets, modify, ret, throw, await in *.

Lemma filter_length_zero (A : Type) (f : A -> bool) (l : list A) :
  Nat.eqb (length (filter f l)) 0 = true <-> Forall (fun x => f x = false) l.
Proof.
  induction l as [|a l IH]; simpl.
  - split; intros; [constructor | reflexivity].
  - destruct (f a) eqn:Ha; simpl.
    + split; [discriminate|].
      intros H. inversion H as [|x l' Hx Hl]; subst. simpl in Hx. congruence.
    + rewrite IH. split; intros H.
      * constructor; assumption.
      * inversion H; assumption.
Qed.

Lemma hasGitHubRemotes_false (fm : FolderRepositoryManager.t) :
  hasGitHubRemotes fm = false <->
  FolderRepositoryManager.getGitHubRemotes fm = [].
Proof.
  unfold hasGitHubRemotes, Nat.ltb.
  destruct (FolderRepositoryManager.getGitHubRemotes fm); simpl;
    split; intros; congruence.
Qed.

Lemma hasRepositoryRemotes_false (fm : FolderRepositoryManager.t) :
  hasRepositoryRemotes fm = false <->
  Repository.remotes
    (Repository.state (FolderRepositoryManager.repository fm)) = [].
Proof.
  unfold hasRepositoryRemotes, Nat.ltb.
  destruct (Repository.remotes _); simpl; split; intros; congruence.
Qed.

Lemma noGitHubRemotes_filter (fms : list FolderRepositoryManager.t) :
  noGitHubRemotes fms <->
  Nat.eqb (length (filter hasGitHubRemotes fms)) 0 = true.
Proof.
  rewrite filter_length_zero. unfold noGitHubRemotes.
  rewrite !Forall_forall.
  split; intros H fm Hin; apply hasGitHubRemotes_false; auto.
Qed.

Lemma noRepositoryRemotes_filter (fms : list FolderRepositoryManager.t) :
  noRepositoryRemotes fms <->
  Nat.eqb (length (filter hasRepositoryRemotes fms)) 0 = true.
Proof.
  rewrite filter_length_zero. unfold noRepositoryRemotes.
  rewrite !Forall_forall.
  split; intros H fm Hin; apply hasRepositoryRemotes_false; auto.
Qed.

Lemma PRManagerState_eqb_eq (a b : PRManagerState.t) :
  PRManagerState.eqb a b = true <-> a = b.
Proof. destruct a, b; simpl; split; intros; congruence. Qed.

Lemma PRManagerState_eqb_neq (a b : PRManagerState.t) :
  PRManagerState.eqb a b = false <-> a <> b.
Proof. destruct a, b; simpl; split; intros; congruence. Qed.

(** The placeholder conditions are exactly the failure of the guards. *)
Lemma placeholderPass_reachesSubtree w this :
  placeholderPass w this <-> reachesSubtree w this = false.
Proof.
  unfold placeholderPass, reachesSubtree.
  destruct (_prManager this) as [m|]; [|tauto].
  rewrite andb_false_iff, !negb_false_iff, PRManagerState_eqb_eq,
    <- noGitHubRemotes_filter.
  tauto.
Qed.

(** [needsRemotes] never changes the provider. *)
Lemma needsRemotes_state w this : fst (needsRemotes w this) = this.
Proof.
  unfold_monad.
  destruct (_prManager this); [|reflexivity].
  destruct (PRManagerState.eqb _ _); [reflexivity|].
  destruct (remotesSetting w); reflexivity.
Qed.

(** A call that does not reach the subtree part leaves the provider as it
    was, whatever [element] is. *)
Lemma getChildren_placeholder_state w element this :
  reachesSubtree w this = false ->
  fst (getChildren w element this) = this.
Proof.
  unfold reachesSubtree, getChildren. intros H.
  unfold bind at 1. unfold gets at 1. unfold bind at 1. unfold gets at 1.
  destruct (_prManager this) as [m|] eqn:Hm.
  - destruct (PRManagerState.eqb _ _) eqn:Hs; [reflexivity|].
    simpl in H. rewrite negb_false_iff in H. rewrite H.
    apply needsRemotes_state.
  - destruct (workspaceFolders w); reflexivity.
Qed.

(** The outcome of one classification, spelled out. *)
Lemma isVSO_unfold w this :
  isVSO w this =
  match _isVSO this with
  | Some b => (this, Ok b)
  | None =>
      let probed := set_probeCalls (S (probeCalls this)) this in
      match asExternalUri w (callbackUriOf w) with
      | Ok callbackUri =>
          let b := isWorkspacesAuthority (Uri.authority callbackUri) in
          (set_isVSO (Some b) probed, Ok b)
      | Throw e => (probed, Throw e)
      end
  end.
Proof.
  unfold_monad.
  destruct (_isVSO this); [reflexivity|].
  destruct (asExternalUri w (callbackUriOf w)); reflexivity.
Qed.

(** A root pass that reaches the subtree part, in terms of the
    classification it awaits. *)
Lemma getChildren_root_unfold w this m :
  _prManager this = Some m ->
  reachesSubtree w this = true ->
  getChildren w None this =
  let this0 := disposeChildren this in
  let fms := PullRequestManager.folderManagers (managers w m) in
  if Nat.eqb (length fms) 1 then
    match nth_error fms 0 with
    | Some fm =>
        match isVSO w this0 with
        | (this1, Ok b) =>
            (this1, getCategoryTreeNodes w fm (_telemetry this) b (_view this))
        | (this1, Throw e) => (this1, Throw e)
        end
    | None => (this0, Throw TypeError)
    end
  else
    match isVSO w this0 with
    | (this1, Ok b) =>
        let generation :=
          newWorkspaceFolderNodes (nextObjectId this1) (_view this)
            (_telemetry this) b fms in
        (set_childrenDisposables (map NodeDisposable generation)
           (set_nextObjectId (nextObjectId this1 + length fms) this1),
         Ok generation)
    | (this1, Throw e) => (this1, Throw e)
    end.
Proof.
  unfold reachesSubtree, getChildren, disposeChildren. intros Hm Hr.
  rewrite Hm in Hr. apply andb_true_iff in Hr. destruct Hr as [Hs Hg].
  rewrite negb_true_iff in Hs, Hg.
  unfold_bind. rewrite Hm, Hs, Hg.
  destruct (Nat.eqb (length (_childrenDisposables this)) 0);
    destruct (Nat.eqb (length (PullRequestManager.folderManagers (managers w m))) 1);
    simpl;
    try (destruct (PullRequestManager.folderManagers (managers w m)); simpl;
         try reflexivity);
    match goal with
    | |- context [isVSO w ?s] => destruct (isVSO w s) as [this1 [b|e]]
    end; reflexivity.
Qed.

(** A call on a defined element that reaches the subtree part. *)
Lemma getChildren_element_unfold w this m element :
  _prManager this = Some m ->
  reachesSubtree w this = true ->
  getChildren w (Some element) this =
  (this,
   if Nat.eqb
        (length (filter hasRepositoryRemotes
           (PullRequestManager.folderManagers (managers w m)))) 0
   then Ok [PRCategoryActionNode (_view this) PRCategoryActionType.Empty]
   else TreeNode_getChildren w element).
Proof.
  unfold reachesSubtree, getChildren. intros Hm Hr.
  rewrite Hm in Hr. apply andb_true_iff in Hr. destruct Hr as [Hs Hg].
  rewrite negb_true_iff in Hs, Hg.
  unfold_bind. rewrite Hm, Hs, Hg. clear Hg.
  destruct (Nat.eqb (length (filter hasRepositoryRemotes _)) 0); reflexivity.
Qed.

(** The classifier writes its cache and the probe counter, nothing else. *)
Lemma isVSO_frame w this :
  let this' := fst (isVSO w this) in
  _onDidChangeTreeData this' = _onDidChangeTreeData this
  /\ _disposables this' = _disposables this
  /\ _childrenDisposables this' = _childrenDisposables this
  /\ _view this' = _view this
  /\ _prManager this' = _prManager this
  /\ _initialized this' = _initialized this
  /\ _telemetry this' = _telemetry this
  /\ disposeCalls this' = disposeCalls this
  /\ nextObjectId this' = nextObjectId this.
Proof.
  rewrite isVSO_unfold.
  destruct (_isVSO this); [simpl; tauto|].
  destruct (asExternalUri w (callbackUriOf w)); simpl; tauto.
Qed.

Lemma disposeChildren_calls this :
  disposeCalls (disposeChildren this)
  = disposeCalls this ++ _childrenDisposables this.
Proof.
  unfold disposeChildren.
  destruct (_childrenDisposables this) eqn:H; simpl.
  - rewrite app_nil_r. reflexivity.
  - reflexivity.
Qed.

Lemma disposeChildren_frame this :
  let this' := disposeChildren this in
  _onDidChangeTreeData this' = _onDidChangeTreeData this
  /\ _disposables this' = _disposables this
  /\ _childrenDisposables this' = _childrenDisposables this
  /\ _view this' = _view this
  /\ _prManager this' = _prManager this
  /\ _initialized this' = _initialized this
  /\ _isVSO this' = _isVSO this
  /\ _telemetry this' = _telemetry this
  /\ probeCalls this' = probeCalls this
  /\ nextObjectId this' = nextObjectId this.
Proof.
  unfold disposeChildren.
  destruct (Nat.eqb _ 0); simpl; tauto.
Qed.

(** Everything one [getChildren] call can do to the provider: it appends
    to the dispose log nothing or the tracked children, and it either
    keeps the tracked children or replaces them by freshly allocated
    workspace-folder nodes. *)
Lemma getChildren_effect w element this :
  let this' := fst (getChildren w element this) in
  (_onDidChangeTreeData this' = _onDidChangeTreeData this
   /\ _disposables this' = _disposables this
   /\ _view this' = _view this
   /\ _prManager this' = _prManager this
   /\ _initialized this' = _initialized this
   /\ _telemetry this' = _telemetry this)
  /\ (disposeCalls this' = disposeCalls this
      \/ (element = None /\ reachesSubtree w this = true
          /\ disposeCalls this'
             = disposeCalls this ++ _childrenDisposables this))
  /\ ((_childrenDisposables this' = _childrenDisposables this
       /\ nextObjectId this' = nextObjectId this)
      \/ (element = None
          /\ exists b fms,
               _childrenDisposables this'
               = map NodeDisposable
                   (newWorkspaceFolderNodes (nextObjectId this) (_view this)
                      (_telemetry this) b fms)
               /\ nextObjectId this' = nextObjectId this + length fms)).
Proof.
  destruct (reachesSubtree w this) eqn:Hr.
  2:{ cbv zeta. rewrite getChildren_placeholder_state by assumption. tauto. }
  assert (exists m, _prManager this = Some m) as [m Hm].
  { unfold reachesSubtree in Hr. destruct (_prManager this); eauto.
    discriminate. }
  destruct element as [element|].
  { cbv zeta. rewrite (@getChildren_element_unfold w this m element Hm Hr).
    cbn [fst]. tauto. }
  cbv zeta. rewrite (@getChildren_root_unfold w this m Hm Hr). cbv zeta.
  pose proof (disposeChildren_frame this) as F0. cbv zeta in F0.
  pose proof (disposeChildren_calls this) as C0.
  pose proof (isVSO_frame w (disposeChildren this)) as F1. cbv zeta in F1.
  destruct F0 as (a0 & a1 & a2 & a3 & a4 & a5 & a6 & a7 & a8 & a9).
  destruct F1 as (b0 & b1 & b2 & b3 & b4 & b5 & b6 & b7 & b8).
  destruct (isVSO w (disposeChildren this)) as [this1 r].
  cbn [fst snd] in *.
  set (fms := PullRequestManager.folderManagers (managers w m)).
  assert (F : _onDidChangeTreeData this1 = _onDidChangeTreeData this
              /\ _disposables this1 = _disposables this
              /\ _view this1 = _view this
              /\ _prManager this1 = _prManager this
              /\ _initialized this1 = _initialized this
              /\ _telemetry this1 = _telemetry this)
    by (repeat split; congruence).
  assert (D : disposeCalls this1
              = disposeCalls this ++ _childrenDisposables this)
    by congruence.
  assert (K : _childrenDisposables this1 = _childrenDisposables this
              /\ nextObjectId this1 = nextObjectId this)
    by (split; congruence).
  destruct (Nat.eqb (length fms) 1).
  - destruct (nth_error fms 0).
    + destruct r; cbn [fst]; auto 6.
    + cbn [fst]. split; [tauto|]. split; [right; tauto|]. left.
      split; congruence.
  - destruct r as [b|e]; cbn [fst]; [|auto 6].
    split; [exact F|]. split; [right; auto|].
    right. split; [reflexivity|]. exists b, fms.
    destruct K as [_ K]. rewrite K. split; reflexivity.
Qed.

Lemma step_initialized w c this :
  _initialized this = true -> _initialized (step w c this) = true.
Proof.
  intros H. destruct c as [m|element|node|]; simpl.
  - unfold_monad. rewrite H. simpl. exact H.
  - destruct (getChildren_effect w element this) as ((_ & _ & _ & _ & Hi & _) & _).
    congruence.
  - destruct node; exact H.
  - exact H.
Qed.

Lemma run_initialized history : forall this,
  _initialized this = true -> _initialized (run history this) = true.
Proof.
  induction history as [|[w c] rest IH]; intros this H; simpl.
  - exact H.
  - apply IH. apply step_initialized. exact H.
Qed.

Lemma initialize_unfold w prManager this :
  initialize w prManager this =
  if _initialized this then (this, Throw alreadyInitialized)
  else
    (set_onDidChangeTreeData (_onDidChangeTreeData this ++ [None])
       (set_disposables
          ((((_disposables this ++ [ManagerStateListener prManager])
             ++ map RepositoriesListener
                  (PullRequestManager.folderManagers (managers w prManager)))
            ++ [ConfigurationListener Queries]))
          (set_prManager (Some prManager) (set_initialized true this))),
     Ok tt).
Proof.
  unfold_monad. destruct (_initialized this); reflexivity.
Qed.

(** ** Root-state resolution *)

(** C3.  When the manager is attached and past Initializing and no folder
    manager reports a GitHub remote, [getChildren] (with or without an
    element) is the needs-remotes sub-resolution and leaves the provider
    untouched: the empty list under NeedsAuthentication; otherwise
    [NoMatchingRemotes; ConfigureRemotes] in that order when the remotes
    setting is configured, and [NoRemotes] when it is not. *)
Theorem getChildren_needs_remotes :
  forall w element this m,
    _prManager this = Some m ->
    PullRequestManager.state (managers w m) <> PRManagerState.Initializing ->
    noGitHubRemotes (PullRequestManager.folderManagers (managers w m)) ->
    getChildren w element this = needsRemotes w this
    /\ (PullRequestManager.state (managers w m)
          = PRManagerState.NeedsAuthentication ->
        getChildren w element this = (this, Ok []))
    /\ (PullRequestManager.state (managers w m)
          <> PRManagerState.NeedsAuthentication ->
        remotesSetting w <> None ->
        getChildren w element this =
        (this,
         Ok [ PRCategoryActionNode (_view this)
                PRCategoryActionType.NoMatchingRemotes;
              PRCategoryActionNode (_view this)
                PRCategoryActionType.ConfigureRemotes ]))
    /\ (PullRequestManager.state (managers w m)
          <> PRManagerState.NeedsAuthentication ->
        remotesSetting w = None ->
        getChildren w element this =
        (this,
         Ok [ PRCategoryActionNode (_view this)
                PRCategoryActionType.NoRemotes ])).
Proof.
  intros w element this m Hm Hs Hg.
  apply PRManagerState_eqb_neq in Hs.
  apply noGitHubRemotes_filter in Hg.
  assert (Hn : getChildren w element this = needsRemotes w this).
  { unfold getChildren. unfold bind at 1. unfold gets at 1.
    unfold bind at 1. unfold gets at 1. rewrite Hm, Hs, Hg. reflexivity. }
  split; [exact Hn|]. rewrite Hn. clear Hn.
  unfold_monad. rewrite Hm.
  repeat split.
  - intros Ha. apply PRManagerState_eqb_eq in Ha. rewrite Ha. reflexivity.
  - intros Ha Hr. apply PRManagerState_eqb_neq in Ha. rewrite Ha.
    destruct (remotesSetting w); [reflexivity | congruence].
  - intros Ha Hr. apply PRManagerState_eqb_neq in Ha. rewrite Ha, Hr.
    reflexivity.
Qed.

(** ** One-time initialisation *)

(** C10.  On a provider that is already initialised, [initialize] throws
    and returns the provider exactly as it received it: the manager
    reference, the disposables, the initialised flag and the log of fired
    change events (so no refresh) are all as before. *)
Theorem initialize_failure_mutates_nothing :
  forall w prManager this,
    _initialized this = true ->
    initialize w prManager this = (this, Throw alreadyInitialized)
    /\ _prManager (fst (initialize w prManager this)) = _prManager this
    /\ _disposables (fst (initialize w prManager this)) = _disposables this
    /\ _initialized (fst (initialize w prManager this)) = true
    /\ _onDidChangeTreeData (fst (initialize w prManager this))
       = _onDidChangeTreeData this.
Proof.
  intros w prManager this H.
  rewrite initialize_unfold, H. simpl. auto.
Qed.

(** C8.  Once [initialize] has succeeded on a provider, every later call of
    [initialize], after any history of other calls and with any manager,
    throws the already-initialised error. *)
Theorem initialize_twice_throws :
  forall w prManager this this',
    initialize w prManager this = (this', Ok tt) ->
    forall history w' prManager',
      initialize w' prManager' (run history this')
      = (run history this', Throw alreadyInitialized).
Proof.
  intros w prManager this this' H history w' prManager'.
  assert (Hi : _initialized this' = true).
  { rewrite initialize_unfold in H.
    destruct (_initialized this); [discriminate|].
    inversion H. reflexivity. }
  rewrite initialize_unfold, (run_initialized history this' Hi).
  reflexivity.
Qed.

(** ** Environment classification *)

Lemma isVSO_cached w this b :
  _isVSO this = Some b -> isVSO w this = (this, Ok b).
Proof. intros H. rewrite isVSO_unfold, H. reflexivity. Qed.

Lemma isVSO_each_cached ws : forall this b,
  _isVSO this = Some b ->
  isVSO_each ws this = (this, map (fun _ => Ok b) ws).
Proof.
  induction ws as [|w rest IH]; intros this b H; simpl.
  - reflexivity.
  - rewrite (isVSO_cached w this b H), (IH this b H). reflexivity.
Qed.

(** C6.  From the first call of [isVSO] that resolves, with value [b]:
    that call made at most one probe, and every call of any later
    sequence of calls returns [b] again without touching the provider, so
    that the number of probes over the whole sequence stays at most one. *)
Theorem isVSO_memoized :
  forall w this this' b,
    isVSO w this = (this', Ok b) ->
    probeCalls this' <= S (probeCalls this)
    /\ forall ws,
         snd (isVSO_each ws this') = map (fun _ => Ok b) ws
         /\ fst (isVSO_each ws this') = this'
         /\ probeCalls (fst (isVSO_each ws this')) <= S (probeCalls this).
Proof.
  intros w this this' b H.
  assert (Hc : _isVSO this' = Some b /\ probeCalls this' <= S (probeCalls this)).
  { rewrite isVSO_unfold in H.
    destruct (_isVSO this) eqn:Hv.
    - inversion H; subst. split; [assumption | lia].
    - destruct (asExternalUri w (callbackUriOf w)); [|discriminate].
      inversion H; subst. simpl. split; [reflexivity | lia]. }
  destruct Hc as [Hc Hp].
  split; [exact Hp|].
  intros ws. rewrite (isVSO_each_cached ws this' b Hc). simpl. auto.
Qed.

(** C7.  When nothing is cached and the probe rejects with [e], [isVSO]
    throws that same [e] to its caller and caches nothing; the next call
    therefore probes again and answers from that new probe alone: a
    resolving probe yields its classification, a rejecting one its
    error. *)
Theorem isVSO_rejection_not_cached :
  forall w this e,
    _isVSO this = None ->
    asExternalUri w (callbackUriOf w) = Throw e ->
    let this' := fst (isVSO w this) in
    snd (isVSO w this) = Throw e
    /\ _isVSO this' = None
    /\ forall w',
         probeCalls (fst (isVSO w' this')) = S (probeCalls this')
         /\ snd (isVSO w' this') =
            match asExternalUri w' (callbackUriOf w') with
            | Ok callbackUri =>
                Ok (isWorkspacesAuthority (Uri.authority callbackUri))
            | Throw e' => Throw e'
            end.
Proof.
  intros w this e Hv Hp. cbv zeta.
  rewrite (isVSO_unfold w this), Hv, Hp. cbn [fst snd].
  split; [reflexivity|]. split; [exact Hv|].
  intros w'. rewrite isVSO_unfold.
  cbn [_isVSO set_probeCalls]. rewrite Hv.
  destruct (asExternalUri w' (callbackUriOf w')); simpl; auto.
Qed.

(** ** Tracking of the installed generation *)

Lemma olderThan_mono n n' d : n <= n' -> olderThan n d -> olderThan n' d.
Proof.
  intros Hle. destruct d as [| | | | | | |node]; simpl; auto.
  destruct node; simpl; auto. lia.
Qed.

Lemma notNode_olderThan n d : notNode d -> olderThan n d.
Proof. destruct d; simpl; tauto. Qed.

Lemma Forall_olderThan_mono n n' l :
  n <= n' -> Forall (olderThan n) l -> Forall (olderThan n') l.
Proof.
  intros Hle H. eapply Forall_impl; [|exact H].
  intros d. apply olderThan_mono. exact Hle.
Qed.

Lemma notNode_count ds r :
  Forall notNode ds -> disposeCount ds (NodeDisposable r) = 0.
Proof.
  intros H. unfold disposeCount. apply count_occ_not_In.
  intros Hin. rewrite Forall_forall in H. exact (H _ Hin).
Qed.

Lemma olderThan_count n l d :
  Forall (olderThan n) l -> ~ olderThan n d -> disposeCount l d = 0.
Proof.
  intros H Hd. unfold disposeCount. apply count_occ_not_In.
  intros Hin. rewrite Forall_forall in H. exact (Hd (H _ Hin)).
Qed.

Lemma disposeCount_app l1 l2 d :
  disposeCount (l1 ++ l2) d = disposeCount l1 d + disposeCount l2 d.
Proof. unfold disposeCount. apply count_occ_app. Qed.

Lemma newWorkspaceFolderNodes_length view telemetry b fms : forall oid,
  length (newWorkspaceFolderNodes oid view telemetry b fms) = length fms.
Proof.
  induction fms as [|fm rest IH]; intros oid; simpl; [|rewrite IH];
    reflexivity.
Qed.

(** The nodes of one generation carry the identities [oid], ...,
    [oid + length fms - 1]. *)
Lemma newWorkspaceFolderNodes_bounds view telemetry b fms : forall oid r,
  In r (newWorkspaceFolderNodes oid view telemetry b fms) ->
  ~ olderThan oid (NodeDisposable r)
  /\ olderThan (oid + length fms) (NodeDisposable r).
Proof.
  induction fms as [|fm rest IH]; intros oid r Hin; simpl in Hin.
  - contradiction.
  - destruct Hin as [Heq|Hin].
    + subst r. simpl. lia.
    + destruct (IH (S oid) r Hin) as [Hlo Hhi]. split.
      * intros Ho. apply Hlo. eapply olderThan_mono; [|exact Ho]. lia.
      * eapply olderThan_mono; [|exact Hhi]. simpl. lia.
Qed.

Lemma newWorkspaceFolderNodes_older view telemetry b fms oid :
  Forall (olderThan (oid + length fms))
    (map NodeDisposable (newWorkspaceFolderNodes oid view telemetry b fms)).
Proof.
  rewrite Forall_forall. intros d Hin.
  apply in_map_iff in Hin. destruct Hin as (r & <- & Hr).
  apply (newWorkspaceFolderNodes_bounds _ _ _ _ _ _ Hr).
Qed.

(** ... and each of them occurs once in it. *)
Lemma newWorkspaceFolderNodes_once view telemetry b fms : forall oid r,
  In r (newWorkspaceFolderNodes oid view telemetry b fms) ->
  disposeCount
    (map NodeDisposable (newWorkspaceFolderNodes oid view telemetry b fms))
    (NodeDisposable r) = 1.
Proof.
  induction fms as [|fm rest IH]; intros oid r Hin; simpl in Hin.
  - contradiction.
  - unfold disposeCount. simpl map.
    destruct Hin as [Heq|Hin].
    + subst r. rewrite count_occ_cons_eq by reflexivity.
      f_equal. apply count_occ_not_In. intros Hin.
      apply in_map_iff in Hin. destruct Hin as (r & Heq & Hr).
      destruct (newWorkspaceFolderNodes_bounds _ _ _ _ _ _ Hr) as [Hlo _].
      apply Hlo. inversion Heq; subst. simpl. lia.
    + rewrite count_occ_cons_neq.
      * apply (IH (S oid) r Hin).
      * intros Heq. inversion Heq; subst.
        destruct (newWorkspaceFolderNodes_bounds _ _ _ _ _ _ Hin) as [Hlo _].
        apply Hlo. simpl. lia.
Qed.

(** What any single call can do to the three tracked components. *)
Lemma step_effect w c this :
  let this' := step w c this in
  (exists ds, _disposables this' = _disposables this ++ ds
              /\ Forall notNode ds)
  /\ (disposeCalls this' = disposeCalls this
      \/ (c = CallGetChildren None /\ reachesSubtree w this = true
          /\ disposeCalls this'
             = disposeCalls this ++ _childrenDisposables this)
      \/ (c = CallDispose
          /\ disposeCalls this' = disposeCalls this ++ _disposables this))
  /\ ((_childrenDisposables this' = _childrenDisposables this
       /\ nextObjectId this' = nextObjectId this)
      \/ (c = CallGetChildren None
          /\ exists view telemetry b fms,
               _childrenDisposables this'
               = map NodeDisposable
                   (newWorkspaceFolderNodes (nextObjectId this) view
                      telemetry b fms)
               /\ nextObjectId this' = nextObjectId this + length fms)).
Proof.
  destruct c as [prManager|element|node|]; cbn [step].
  - rewrite initialize_unfold.
    destruct (_initialized this); cbn.
    + split; [exists []; rewrite app_nil_r; auto|]. auto.
    + split; [|auto].
      eexists. rewrite <- !app_assoc. split; [reflexivity|].
      rewrite Forall_forall. intros d Hin.
      simpl in Hin. destruct Hin as [<-|Hin]; [exact I|].
      apply in_app_or in Hin. destruct Hin as [Hin|[<-|[]]]; [|exact I].
      apply in_map_iff in Hin. destruct Hin as (fm & <- & _). exact I.
  - destruct (getChildren_effect w element this)
      as ((_ & Hd & _) & Hc & Hk).
    split; [exists []; rewrite app_nil_r; auto|].
    split.
    + destruct Hc as [Hc|(-> & Hr & Hc)]; [left | right; left]; auto.
    + destruct Hk as [Hk|(-> & b & fms & Hk)]; [left; exact Hk|].
      right. split; [reflexivity|]. eauto.
  - split; [exists []; rewrite app_nil_r; destruct node; auto|].
    destruct node; cbn; auto.
  - split; [exists []; rewrite app_nil_r; auto|].
    cbn. auto.
Qed.

Lemma constructor_wellTracked w telemetry :
  wellTracked (constructor w telemetry).
Proof.
  unfold wellTracked, constructor. simpl.
  repeat split; repeat constructor.
Qed.

Lemma step_nextObjectId w c this :
  nextObjectId this <= nextObjectId (step w c this).
Proof.
  destruct (step_effect w c this) as (_ & _ & [[_ Hn]|(_ & v & t & b & fms & _ & Hn)]);
    rewrite Hn; lia.
Qed.

Lemma step_wellTracked w c this :
  wellTracked this -> wellTracked (step w c this).
Proof.
  intros (Hc & Hd & Hn).
  pose proof (step_nextObjectId w c this) as Hle.
  destruct (step_effect w c this) as ((ds & Eds & Hds) & Ed & Ec).
  unfold wellTracked. repeat split.
  - destruct Ec as [[Ec _]|(_ & v & t & b & fms & Ec & En)]; rewrite Ec.
    + eapply Forall_olderThan_mono; eauto.
    + rewrite En. apply newWorkspaceFolderNodes_older.
  - destruct Ed as [Ed|[(_ & _ & Ed)|(_ & Ed)]]; rewrite Ed;
      repeat (apply Forall_app; split);
      try (eapply Forall_olderThan_mono; eassumption).
    eapply Forall_impl; [|exact Hn]. intros d. apply notNode_olderThan.
  - rewrite Eds. apply Forall_app. split; assumption.
Qed.

Lemma run_wellTracked history : forall this,
  wellTracked this -> wellTracked (run history this).
Proof.
  induction history as [|[w c] rest IH]; intros this H; simpl; auto.
  apply IH. apply step_wellTracked. exact H.
Qed.

(** A node that is older than the allocation pointer and no longer tracked
    is never disposed again. *)
Lemma step_settled w c this r :
  wellTracked this ->
  olderThan (nextObjectId this) (NodeDisposable r) ->
  ~ In (NodeDisposable r) (_childrenDisposables this) ->
  olderThan (nextObjectId (step w c this)) (NodeDisposable r)
  /\ ~ In (NodeDisposable r) (_childrenDisposables (step w c this))
  /\ disposeCount (disposeCalls (step w c this)) (NodeDisposable r)
     = disposeCount (disposeCalls this) (NodeDisposable r).
Proof.
  intros (Hc & Hd & Hn) Ho Hout.
  pose proof (step_nextObjectId w c this) as Hle.
  destruct (step_effect w c this) as (_ & Ed & Ec).
  split; [eapply olderThan_mono; eassumption|]. split.
  - destruct Ec as [[Ec _]|(_ & v & t & b & fms & Ec & _)]; rewrite Ec.
    + exact Hout.
    + intros Hin. apply in_map_iff in Hin. destruct Hin as (r' & Heq & Hin).
      inversion Heq; subst r'.
      destruct (newWorkspaceFolderNodes_bounds _ _ _ _ _ _ Hin) as [Hlo _].
      exact (Hlo Ho).
  - destruct Ed as [Ed|[(_ & _ & Ed)|(_ & Ed)]]; rewrite Ed;
      [reflexivity | |]; rewrite disposeCount_app.
    + unfold disposeCount at 2.
      rewrite (proj1 (count_occ_not_In _ _ _) Hout). lia.
    + rewrite (notNode_count _ r Hn). lia.
Qed.

Lemma run_settled history r : forall this,
  wellTracked this ->
  olderThan (nextObjectId this) (NodeDisposable r) ->
  ~ In (NodeDisposable r) (_childrenDisposables this) ->
  disposeCount (disposeCalls (run history this)) (NodeDisposable r)
  = disposeCount (disposeCalls this) (NodeDisposable r).
Proof.
  induction history as [|[w c] rest IH]; intros this Hw Ho Hout; simpl.
  - reflexivity.
  - destruct (step_settled w c this r Hw Ho Hout) as (Ho' & Hout' & Hcount).
    rewrite (IH _ (step_wellTracked w c this Hw) Ho' Hout'). exact Hcount.
Qed.

(** Calls that are not subtree root passes keep the tracked children and
    the allocation pointer, and dispose no node. *)
Lemma run_between_subtree_passes mid : forall this,
  noSubtreePass mid this = true ->
  wellTracked this ->
  _childrenDisposables (run mid this) = _childrenDisposables this
  /\ nextObjectId (run mid this) = nextObjectId this
  /\ forall r,
       disposeCount (disposeCalls (run mid this)) (NodeDisposable r)
       = disposeCount (disposeCalls this) (NodeDisposable r).
Proof.
  induction mid as [|[w c] rest IH]; intros this Hmid Hw; simpl.
  - auto.
  - simpl in Hmid. apply andb_true_iff in Hmid. destruct Hmid as [Hc Hmid].
    apply negb_true_iff, andb_false_iff in Hc.
    destruct (IH _ Hmid (step_wellTracked w c this Hw)) as (Ic & In' & Id).
    assert (Hquiet : c = CallGetChildren None -> step w c this = this).
    { intros ->. destruct Hc as [Hc|Hc]; [discriminate|].
      apply getChildren_placeholder_state. exact Hc. }
    destruct (step_effect w c this) as (_ & Ed & Ec).
    split; [|split].
    + rewrite Ic. destruct Ec as [[Ec _]|(Hroot & _)]; [exact Ec|].
      rewrite (Hquiet Hroot). reflexivity.
    + rewrite In'. destruct Ec as [[_ En]|(Hroot & _)]; [exact En|].
      rewrite (Hquiet Hroot). reflexivity.
    + intros r. rewrite Id.
      destruct Ed as [Ed|[(Hroot & _)|(_ & Ed)]].
      * rewrite Ed. reflexivity.
      * rewrite (Hquiet Hroot). reflexivity.
      * rewrite Ed, disposeCount_app.
        destruct Hw as (_ & _ & Hn). rewrite (notNode_count _ r Hn). lia.
Qed.

(** The pass the predicate [installsGeneration] describes, spelled out. *)
Lemma getChildren_installs w this :
  installsGeneration w this = true ->
  exists m b,
    _prManager this = Some m
    /\ let fms := PullRequestManager.folderManagers (managers w m) in
       let generation :=
         newWorkspaceFolderNodes (nextObjectId this) (_view this)
           (_telemetry this) b fms in
       let this' := fst (getChildren w None this) in
       snd (getChildren w None this) = Ok generation
       /\ snd (isVSO w this) = Ok b
       /\ _childrenDisposables this' = map NodeDisposable generation
       /\ disposeCalls this'
          = disposeCalls this ++ _childrenDisposables this
       /\ nextObjectId this' = nextObjectId this + length fms.
Proof.
  unfold installsGeneration. intros H.
  apply andb_true_iff in H. destruct H as [H Hv].
  apply andb_true_iff in H. destruct H as [Hr Hl].
  destruct (_prManager this) as [m|] eqn:Hm; [|discriminate].
  apply negb_true_iff in Hl.
  pose proof (disposeChildren_frame this) as F0. cbv zeta in F0.
  destruct F0 as (a0 & a1 & a2 & a3 & a4 & a5 & a6 & a7 & a8 & a9).
  pose proof (disposeChildren_calls this) as C0.
  assert (exists b,
    isVSO w this = (fst (isVSO w this), Ok b)
    /\ isVSO w (disposeChildren this)
       = (fst (isVSO w (disposeChildren this)), Ok b)) as (b & Hb0 & Hb).
  { rewrite !isVSO_unfold, a6.
    destruct (_isVSO this) as [b|]; [exists b; auto|].
    destruct (asExternalUri w (callbackUriOf w)) as [u|e]; [|discriminate].
    eexists. cbn. split; reflexivity. }
  pose proof (isVSO_frame w (disposeChildren this)) as F1. cbv zeta in F1.
  destruct F1 as (b0 & b1 & b2 & b3 & b4 & b5 & b6 & b7 & b8).
  exists m, b. split; [reflexivity|]. cbv zeta.
  rewrite (@getChildren_root_unfold w this m Hm Hr). cbv zeta.
  rewrite Hl, Hb, Hb0.
  cbn [fst snd set_childrenDisposables set_nextObjectId
       _childrenDisposables disposeCalls nextObjectId].
  rewrite b8, a9, b7, C0.
  repeat split; reflexivity.
Qed.

Lemma wellTracked_fresh_count this d :
  wellTracked this ->
  ~ olderThan (nextObjectId this) d ->
  disposeCount (disposeCalls this ++ _childrenDisposables this) d = 0.
Proof.
  intros (Hc & Hd & _) Hfresh.
  rewrite disposeCount_app,
    (olderThan_count _ _ _ Hd Hfresh), (olderThan_count _ _ _ Hc Hfresh).
  reflexivity.
Qed.

(** X19.  Between two root passes of the multi-folder branch.  Take any
    provider reached from construction, a root pass that installs
    generation [G1] (more than one folder manager, lines 174-178), then any
    calls none of which is a root pass reaching the subtree part, then a
    root pass that installs [G2], then any further calls whatsoever.
    Every node of [G1] has not been disposed before the second pass, has
    been disposed exactly once when the second pass ends, and still exactly
    once after all the further calls; no node of [G2] has been disposed
    when the pass that installs it ends; and after each of the two passes
    the tracked children are exactly the generation it returned. *)
Theorem successive_generations_disposed_once :
  forall w0 telemetry pre w1 mid w2 later G1 G2,
    let this := run pre (constructor w0 telemetry) in
    let this1 := run mid (step w1 (CallGetChildren None) this) in
    let this2 := step w2 (CallGetChildren None) this1 in
    installsGeneration w1 this = true ->
    snd (getChildren w1 None this) = Ok G1 ->
    noSubtreePass mid (step w1 (CallGetChildren None) this) = true ->
    installsGeneration w2 this1 = true ->
    snd (getChildren w2 None this1) = Ok G2 ->
    (forall r, In r G1 ->
       disposeCount (disposeCalls this1) (NodeDisposable r) = 0
       /\ disposeCount (disposeCalls this2) (NodeDisposable r) = 1
       /\ disposeCount (disposeCalls (run later this2)) (NodeDisposable r)
          = 1)
    /\ (forall r, In r G2 ->
          disposeCount (disposeCalls this2) (NodeDisposable r) = 0)
    /\ _childrenDisposables (step w1 (CallGetChildren None) this)
       = map NodeDisposable G1
    /\ _childrenDisposables this2 = map NodeDisposable G2.
Proof.
  intros w0 telemetry pre w1 mid w2 later G1 G2 this this1 this2
    Hi1 HG1 Hmid Hi2 HG2.
  assert (Hw : wellTracked this)
    by (apply run_wellTracked, constructor_wellTracked).
  set (s1 := step w1 (CallGetChildren None) this) in *.
  assert (Hw1 : wellTracked s1) by (apply step_wellTracked; exact Hw).
  assert (Hwm : wellTracked this1) by (apply run_wellTracked; exact Hw1).
  assert (Hw2 : wellTracked this2) by (apply step_wellTracked; exact Hwm).
  destruct (getChildren_installs w1 this Hi1) as (m1 & b1 & _ & I1).
  cbv zeta in I1. destruct I1 as (R1 & _ & C1 & D1 & N1).
  assert (E1 : G1 = newWorkspaceFolderNodes (nextObjectId this) (_view this)
                      (_telemetry this) b1
                      (PullRequestManager.folderManagers (managers w1 m1)))
    by congruence.
  clear R1 HG1.
  destruct (run_between_subtree_passes mid s1 Hmid Hw1) as (Mc & Mn & Md).
  fold this1 in Mc, Mn, Md.
  destruct (getChildren_installs w2 this1 Hi2) as (m2 & b2 & _ & I2).
  cbv zeta in I2. destruct I2 as (R2 & _ & C2 & D2 & N2).
  assert (E2 : G2 = newWorkspaceFolderNodes (nextObjectId this1)
                      (_view this1) (_telemetry this1) b2
                      (PullRequestManager.folderManagers (managers w2 m2)))
    by congruence.
  clear R2 HG2.
  change (fst (getChildren w1 None this)) with s1 in C1, D1, N1.
  change (fst (getChildren w2 None this1)) with this2 in C2, D2, N2.
  rewrite <- E1 in C1. rewrite <- E2 in C2.
  assert (Hfresh1 : forall r, In r G1 ->
            ~ olderThan (nextObjectId this) (NodeDisposable r)
            /\ olderThan (nextObjectId this1) (NodeDisposable r)).
  { intros r Hr. rewrite Mn, N1. rewrite E1 in Hr.
    apply (newWorkspaceFolderNodes_bounds _ _ _ _ _ _ Hr). }
  assert (Hfresh2 : forall r, In r G2 ->
            ~ olderThan (nextObjectId this1) (NodeDisposable r)).
  { intros r Hr. rewrite E2 in Hr.
    apply (newWorkspaceFolderNodes_bounds _ _ _ _ _ _ Hr). }
  assert (Hbefore : forall r, In r G1 ->
            disposeCount (disposeCalls this1) (NodeDisposable r) = 0).
  { intros r Hr. rewrite Md, D1.
    apply wellTracked_fresh_count; [exact Hw | apply Hfresh1; exact Hr]. }
  assert (Honce : forall r, In r G1 ->
            disposeCount (disposeCalls this2) (NodeDisposable r) = 1).
  { intros r Hr.
    rewrite D2, disposeCount_app, (Hbefore r Hr), Mc, C1, E1.
    apply newWorkspaceFolderNodes_once. rewrite <- E1. exact Hr. }
  split; [|split; [|split; assumption]].
  - intros r Hr. split; [apply Hbefore; exact Hr|].
    split; [apply Honce; exact Hr|].
    (* no later call disposes it again *)
    destruct (Hfresh1 r Hr) as [_ Hold].
    rewrite run_settled; [apply Honce; exact Hr | exact Hw2 | |].
    + rewrite N2. eapply olderThan_mono; [|exact Hold]. lia.
    + rewrite C2. intros Hin. apply in_map_iff in Hin.
      destruct Hin as (r' & Heq & Hin). inversion Heq; subst r'.
      exact (Hfresh2 r Hin Hold).
  - (* G2 is not disposed by the pass that installs it *)
    intros r Hr. rewrite D2.
    apply wellTracked_fresh_count; [exact Hwm | apply Hfresh2; exact Hr].
Qed.

(** C9.  A root pass that returns a placeholder result (no manager
    attached, manager Initializing, or the needs-remotes branch) leaves the
    whole provider as it was, in particular the dispose log and the tracked
    children; and on any provider reached from construction, a call that
    changes how often some node has been disposed is a root pass that is
    not a placeholder pass. *)
Theorem placeholder_pass_keeps_generation :
  forall w,
    (forall this,
       placeholderPass w this ->
       fst (getChildren w None this) = this
       /\ disposeCalls (fst (getChildren w None this)) = disposeCalls this
       /\ _childrenDisposables (fst (getChildren w None this))
          = _childrenDisposables this)
    /\ (forall w0 telemetry history c r,
          let this := run history (constructor w0 telemetry) in
          disposeCount (disposeCalls (step w c this)) (NodeDisposable r)
          <> disposeCount (disposeCalls this) (NodeDisposable r) ->
          c = CallGetChildren None /\ ~ placeholderPass w this).
Proof.
  intros w. split.
  - intros this H. apply placeholderPass_reachesSubtree in H.
    rewrite (getChildren_placeholder_state w None this H). auto.
  - intros w0 telemetry history c r this Hchange.
    assert (Hw : wellTracked this)
      by (apply run_wellTracked, constructor_wellTracked).
    destruct (step_effect w c this) as (_ & Ed & _).
    destruct Ed as [Ed|[(Hc & Hr & _)|(_ & Ed)]].
    + rewrite Ed in Hchange. contradiction.
    + split; [exact Hc|]. rewrite placeholderPass_reachesSubtree.
      congruence.
    + exfalso. apply Hchange. rewrite Ed, disposeCount_app.
      destruct Hw as (_ & _ & Hn). rewrite (notNode_count _ r Hn). lia.
Qed.

Lemma reachesSubtree_intro w this m :
  _prManager this = Some m ->
  PullRequestManager.state (managers w m) <> PRManagerState.Initializing ->
  ~ noGitHubRemotes (PullRequestManager.folderManagers (managers w m)) ->
  reachesSubtree w this = true.
Proof.
  intros Hm Hs Hg. unfold reachesSubtree. rewrite Hm.
  apply PRManagerState_eqb_neq in Hs. rewrite Hs. simpl.
  apply negb_true_iff. apply not_true_is_false.
  rewrite <- noGitHubRemotes_filter. exact Hg.
Qed.

(** C1, as the code has it.  The Empty override belongs to calls on a
    defined element: when the manager is attached and past Initializing, at
    least one folder manager reports a GitHub remote, and no folder
    manager's repository state reports any remote, [getChildren element]
    returns exactly the single Empty placeholder, without asking the
    element and without touching the provider. *)
Theorem getChildren_element_empty_override :
  forall w this m element,
    _prManager this = Some m ->
    PullRequestManager.state (managers w m) <> PRManagerState.Initializing ->
    ~ noGitHubRemotes (PullRequestManager.folderManagers (managers w m)) ->
    noRepositoryRemotes (PullRequestManager.folderManagers (managers w m)) ->
    getChildren w (Some element) this =
    (this, Ok [PRCategoryActionNode (_view this) PRCategoryActionType.Empty]).
Proof.
  intros w this m element Hm Hs Hg Hr.
  rewrite (getChildren_element_unfold w this m element Hm
             (reachesSubtree_intro w this m Hm Hs Hg)).
  apply noRepositoryRemotes_filter in Hr. rewrite Hr. reflexivity.
Qed.

Lemma isVSO_disposeChildren w this :
  snd (isVSO w (disposeChildren this)) = snd (isVSO w this).
Proof.
  pose proof (disposeChildren_frame this) as F. cbv zeta in F.
  destruct F as (_ & _ & _ & _ & _ & _ & Hv & _).
  rewrite !isVSO_unfold, Hv.
  destruct (_isVSO this); [reflexivity|].
  destruct (asExternalUri w (callbackUriOf w)); reflexivity.
Qed.

(** The result of a root pass that reaches the subtree part, by the
    outcome of the classification. *)
Lemma getChildren_root_result w this m :
  _prManager this = Some m ->
  reachesSubtree w this = true ->
  snd (getChildren w None this) =
  let fms := PullRequestManager.folderManagers (managers w m) in
  match snd (isVSO w this) with
  | Ok b =>
      if Nat.eqb (length fms) 1 then
        match nth_error fms 0 with
        | Some fm => getCategoryTreeNodes w fm (_telemetry this) b (_view this)
        | None => Throw TypeError
        end
      else
        Ok (newWorkspaceFolderNodes (nextObjectId this) (_view this)
              (_telemetry this) b fms)
  | Throw e =>
      if Nat.eqb (length fms) 1 then
        match nth_error fms 0 with
        | Some _ => Throw e
        | None => Throw TypeError
        end
      else Throw e
  end.
Proof.
  intros Hm Hr.
  rewrite (getChildren_root_unfold w this m Hm Hr). cbv zeta.
  rewrite <- (isVSO_disposeChildren w this).
  pose proof (disposeChildren_frame this) as F0. cbv zeta in F0.
  destruct F0 as (_ & _ & _ & _ & _ & _ & _ & _ & _ & a9).
  pose proof (isVSO_frame w (disposeChildren this)) as F1. cbv zeta in F1.
  destruct F1 as (_ & _ & _ & _ & _ & _ & _ & _ & b8).
  destruct (isVSO w (disposeChildren this)) as [this1 [b|e]];
    cbn [fst snd] in *;
    destruct (Nat.eqb _ 1); try destruct (nth_error _ 0);
    cbn [fst snd]; try reflexivity.
  rewrite b8, a9. reflexivity.
Qed.

Lemma newWorkspaceFolderNodes_nth view telemetry b fms : forall oid i fm,
  nth_error fms i = Some fm ->
  nth_error (newWorkspaceFolderNodes oid view telemetry b fms) i
  = Some (WorkspaceFolderNode (oid + i) view
            (Repository.rootUri (FolderRepositoryManager.repository fm))
            fm telemetry b).
Proof.
  induction fms as [|fm0 rest IH]; intros oid i fm H.
  - destruct i; discriminate.
  - destruct i as [|i]; simpl in *.
    + inversion H; subst. rewrite Nat.add_0_r. reflexivity.
    + rewrite (IH (S oid) i fm H). f_equal. f_equal. lia.
Qed.

Lemma not_noGitHubRemotes fms fm :
  In fm fms -> FolderRepositoryManager.getGitHubRemotes fm <> [] ->
  ~ noGitHubRemotes fms.
Proof.
  intros Hin Hne Hall. unfold noGitHubRemotes in Hall.
  rewrite Forall_forall in Hall. exact (Hne (Hall fm Hin)).
Qed.

Lemma not_noRepositoryRemotes fms fm :
  In fm fms ->
  Repository.remotes
    (Repository.state (FolderRepositoryManager.repository fm)) <> [] ->
  ~ noRepositoryRemotes fms.
Proof.
  intros Hin Hne Hall. unfold noRepositoryRemotes in Hall.
  rewrite Forall_forall in Hall. exact (Hne (Hall fm Hin)).
Qed.

(** C4.  Two folder managers under a manager in state RepositoriesLoaded,
    one with a GitHub remote (which its repository reports too) and one
    with no remote at all.  A root pass gets past the remote gate and
    returns, with the value [b] the environment classification resolves
    to, exactly two workspace-folder nodes, one per folder manager in list
    order (a rejected classification is rethrown).  A call on any element,
    so also
    on a node under the folder without remotes, returns what that
    element's own [getChildren] returns and leaves the provider untouched;
    it never substitutes the Empty placeholder. *)
Theorem two_folders_one_without_remotes :
  forall w this m first second withRemote withoutRemote,
    _prManager this = Some m ->
    PullRequestManager.state (managers w m)
    = PRManagerState.RepositoriesLoaded ->
    PullRequestManager.folderManagers (managers w m) = [first; second] ->
    In withRemote [first; second] ->
    In withoutRemote [first; second] ->
    FolderRepositoryManager.getGitHubRemotes withRemote <> [] ->
    Repository.remotes
      (Repository.state (FolderRepositoryManager.repository withRemote))
    <> [] ->
    FolderRepositoryManager.getGitHubRemotes withoutRemote = [] ->
    Repository.remotes
      (Repository.state (FolderRepositoryManager.repository withoutRemote))
    = [] ->
    reachesSubtree w this = true
    /\ snd (getChildren w None this) =
       match snd (isVSO w this) with
       | Ok b =>
           Ok [ WorkspaceFolderNode (nextObjectId this) (_view this)
                  (Repository.rootUri (FolderRepositoryManager.repository first))
                  first (_telemetry this) b;
                WorkspaceFolderNode (S (nextObjectId this)) (_view this)
                  (Repository.rootUri (FolderRepositoryManager.repository second))
                  second (_telemetry this) b ]
       | Throw e => Throw e
       end
    /\ (forall element,
          getChildren w (Some element) this
          = (this, TreeNode_getChildren w element)).
Proof.
  intros w this m first second withRemote withoutRemote
    Hm Hs Hf Hin1 Hin2 Hg1 Hr1 Hg2 Hr2.
  assert (Hreach : reachesSubtree w this = true).
  { apply (reachesSubtree_intro w this m Hm).
    - rewrite Hs. discriminate.
    - rewrite Hf. exact (not_noGitHubRemotes _ withRemote Hin1 Hg1). }
  split; [exact Hreach|].
  pose proof (getChildren_root_result w this m Hm Hreach) as R.
  cbv zeta in R. rewrite Hf in R. cbn [length Nat.eqb] in R.
  split.
  - rewrite R. destruct (snd (isVSO w this)); reflexivity.
  - intros element.
    rewrite (getChildren_element_unfold w this m element Hm Hreach), Hf.
    destruct (Nat.eqb _ 0) eqn:Hz; [|reflexivity].
    exfalso. apply noRepositoryRemotes_filter in Hz.
    exact (not_noRepositoryRemotes _ withRemote Hin1 Hr1 Hz).
Qed.

(** C5, as the code has it.  When the manager is attached and past
    Initializing and at least one folder manager reports a GitHub remote, a
    root pass awaits the environment classification (rethrowing its
    rejection) and, with the value [b] it resolves to: with exactly one
    folder manager returns what that folder's category-node builder
    returns, unwrapped; with [N > 1] folder managers returns exactly [N]
    workspace-folder nodes, the [i]-th one built for the [i]-th folder
    manager of the manager's list. *)
Theorem root_resolution_by_folder_count :
  forall w this m,
    _prManager this = Some m ->
    PullRequestManager.state (managers w m) <> PRManagerState.Initializing ->
    ~ noGitHubRemotes (PullRequestManager.folderManagers (managers w m)) ->
    let fms := PullRequestManager.folderManagers (managers w m) in
    (forall fm,
       fms = [fm] ->
       snd (getChildren w None this) =
       match snd (isVSO w this) with
       | Ok b => getCategoryTreeNodes w fm (_telemetry this) b (_view this)
       | Throw e => Throw e
       end)
    /\ (1 < length fms ->
        forall b,
          snd (isVSO w this) = Ok b ->
          exists nodes,
            snd (getChildren w None this) = Ok nodes
            /\ length nodes = length fms
            /\ forall i fm,
                 nth_error fms i = Some fm ->
                 nth_error nodes i
                 = Some (WorkspaceFolderNode (nextObjectId this + i)
                           (_view this)
                           (Repository.rootUri
                              (FolderRepositoryManager.repository fm))
                           fm (_telemetry this) b)).
Proof.
  intros w this m Hm Hs Hg fms.
  pose proof (getChildren_root_result w this m Hm
                (reachesSubtree_intro w this m Hm Hs Hg)) as R.
  cbv zeta in R. fold fms in R.
  split.
  - intros fm Hone. rewrite R, Hone.
    destruct (snd (isVSO w this)); reflexivity.
  - intros Hmany b Hb. rewrite Hb in R.
    assert (Hl : Nat.eqb (length fms) 1 = false)
      by (apply Nat.eqb_neq; lia).
    rewrite Hl in R.
    eexists. split; [exact R|]. split.
    + apply newWorkspaceFolderNodes_length.
    + intros i fm Hi. apply newWorkspaceFolderNodes_nth. exact Hi.
Qed.

(** ** Further properties of the provider *)

Lemma getChildren_element_state w element this :
  fst (getChildren w (Some element) this) = this.
Proof.
  destruct (reachesSubtree w this) eqn:Hr.
  - assert (exists m, _prManager this = Some m) as [m Hm].
    { unfold reachesSubtree in Hr. destruct (_prManager this); eauto.
      discriminate. }
    rewrite (getChildren_element_unfold w this m element Hm Hr). reflexivity.
  - apply getChildren_placeholder_state. exact Hr.
Qed.

(** X1.  A call of [getChildren] on a defined element never changes the
    provider: nothing is disposed, probed, cached, allocated or fired,
    whatever the manager state and the element are. *)
Theorem getChildren_element_leaves_provider :
  forall w element this,
    fst (getChildren w (Some element) this) = this
    /\ disposeCalls (fst (getChildren w (Some element) this))
       = disposeCalls this
    /\ probeCalls (fst (getChildren w (Some element) this))
       = probeCalls this
    /\ _onDidChangeTreeData (fst (getChildren w (Some element) this))
       = _onDidChangeTreeData this.
Proof.
  intros w element this.
  rewrite getChildren_element_state. auto.
Qed.

(** Fields that only [initialize] writes, and the event log. *)
Lemma step_frame w c this :
  isInitializeCall c = false ->
  _disposables (step w c this) = _disposables this
  /\ _prManager (step w c this) = _prManager this
  /\ _initialized (step w c this) = _initialized this
  /\ _view (step w c this) = _view this
  /\ _telemetry (step w c this) = _telemetry this
  /\ _onDidChangeTreeData (step w c this)
     = _onDidChangeTreeData this
       ++ match c with CallRefresh node => [node] | _ => [] end.
Proof.
  intros Hc. destruct c as [m|element|node|]; [discriminate| | |].
  - cbn [step].
    destruct (getChildren_effect w element this)
      as ((He & Hd & Hv & Hm & Hi & Ht) & _).
    rewrite app_nil_r. auto 6.
  - destruct node; cbn; auto 6.
  - cbn. rewrite app_nil_r. auto 6.
Qed.

Lemma step_view w c this :
  _view (step w c this) = _view this
  /\ _telemetry (step w c this) = _telemetry this.
Proof.
  destruct c as [m|element|node|].
  - cbn [step]. rewrite initialize_unfold.
    destruct (_initialized this); cbn; auto.
  - destruct (step_frame w (CallGetChildren element) this eq_refl)
      as (_ & _ & _ & Hv & Ht & _). auto.
  - destruct (step_frame w (CallRefresh node) this eq_refl)
      as (_ & _ & _ & Hv & Ht & _). auto.
  - destruct (step_frame w CallDispose this eq_refl)
      as (_ & _ & _ & Hv & Ht & _). auto.
Qed.

(** X2.  The view is chosen once, by the [showInSCM] setting read in the
    constructor, and no call ever replaces it or the telemetry sink: after
    any history the provider still holds the view [pr:scm] if the setting
    was [true] at construction and [pr:github] otherwise, even if the
    setting has changed since. *)
Theorem view_fixed_at_construction :
  forall w0 telemetry history,
    _view (run history (constructor w0 telemetry))
    = {| treeId := match showInSCM w0 with
                   | Some true => "pr:scm"
                   | _ => "pr:github"
                   end;
         showCollapseAll := true |}
    /\ _telemetry (run history (constructor w0 telemetry)) = telemetry.
Proof.
  intros w0 telemetry history.
  assert (H : forall this,
            _view (run history this) = _view this
            /\ _telemetry (run history this) = _telemetry this).
  { induction history as [|[w c] rest IH]; intros this; simpl; [auto|].
    destruct (IH (step w c this)) as [Hv Ht].
    destruct (step_view w c this) as [Hv' Ht'].
    split; congruence. }
  destruct (H (constructor w0 telemetry)) as [Hv Ht].
  rewrite Hv, Ht. split; reflexivity.
Qed.

Lemma step_attached w c this :
  (_initialized this = true <-> _prManager this <> None) ->
  (_initialized (step w c this) = true <-> _prManager (step w c this) <> None).
Proof.
  intros H. destruct (isInitializeCall c) eqn:Hc.
  - destruct c as [m| | |]; try discriminate.
    cbn [step]. rewrite initialize_unfold.
    destruct (_initialized this) eqn:Hi; cbn [fst].
    + rewrite Hi. exact H.
    + cbn. split; intros; [discriminate | reflexivity].
  - destruct (step_frame w c this Hc) as (_ & Hm & Hi & _).
    rewrite Hm, Hi. exact H.
Qed.

(** X3.  On every provider reached from construction, the initialised flag
    is set exactly when a manager is attached. *)
Theorem initialized_iff_manager_attached :
  forall w0 telemetry history,
    _initialized (run history (constructor w0 telemetry)) = true
    <-> _prManager (run history (constructor w0 telemetry)) <> None.
Proof.
  intros w0 telemetry history.
  assert (H : forall this,
            (_initialized this = true <-> _prManager this <> None) ->
            (_initialized (run history this) = true
             <-> _prManager (run history this) <> None)).
  { induction history as [|[w c] rest IH]; intros this Hthis; simpl.
    - exact Hthis.
    - apply IH. apply step_attached. exact Hthis. }
  apply H. cbn. split; intros; [discriminate | congruence].
Qed.

Lemma step_after_initialize w c this :
  _initialized this = true ->
  _prManager (step w c this) = _prManager this
  /\ _disposables (step w c this) = _disposables this.
Proof.
  intros Hi. destruct (isInitializeCall c) eqn:Hc.
  - destruct c as [m| | |]; try discriminate.
    cbn [step]. rewrite initialize_unfold, Hi. cbn. auto.
  - destruct (step_frame w c this Hc) as (Hd & Hm & _). auto.
Qed.

(** X4.  Once the provider is initialised, no call replaces the attached
    manager or adds or removes a subscription: after any history of calls,
    [_prManager] and [_disposables] are what they were. *)
Theorem subscriptions_frozen_after_initialize :
  forall history this,
    _initialized this = true ->
    _prManager (run history this) = _prManager this
    /\ _disposables (run history this) = _disposables this.
Proof.
  induction history as [|[w c] rest IH]; intros this Hi; simpl; [auto|].
  destruct (step_after_initialize w c this Hi) as [Hm Hd].
  destruct (IH (step w c this) (step_initialized w c this Hi)) as [Hm' Hd'].
  split; congruence.
Qed.

Lemma run_without_initialize history : forall this,
  withoutInitialize history = true ->
  _disposables (run history this) = _disposables this
  /\ _prManager (run history this) = _prManager this
  /\ _initialized (run history this) = _initialized this
  /\ _onDidChangeTreeData (run history this)
     = _onDidChangeTreeData this ++ refreshPayloads history.
Proof.
  induction history as [|[w c] rest IH]; intros this H; simpl.
  - rewrite app_nil_r. auto.
  - unfold withoutInitialize in H. simpl in H.
    apply andb_true_iff in H. destruct H as [Hc H].
    apply negb_true_iff in Hc.
    destruct (step_frame w c this Hc) as (Hd & Hm & Hi & _ & _ & He).
    destruct (IH (step w c this) H) as (Hd' & Hm' & Hi' & He').
    rewrite Hd', Hm', Hi', He', Hd, Hm, Hi, He.
    repeat split; try reflexivity.
    destruct c; try discriminate; rewrite <- app_assoc; reflexivity.
Qed.

(** X5.  The first [initialize] on a provider that has only seen other
    calls since construction succeeds, attaches the manager, and leaves
    exactly the seven registrations of the constructor followed by the
    manager-state listener, one repositories listener per folder manager the
    manager has at that moment (in list order) and the queries listener; it
    fires one whole-tree change event after the refresh payloads of the
    earlier calls. *)
Theorem first_initialize_subscriptions :
  forall w0 telemetry history w prManager,
    withoutInitialize history = true ->
    let this := run history (constructor w0 telemetry) in
    snd (initialize w prManager this) = Ok tt
    /\ _prManager (fst (initialize w prManager this)) = Some prManager
    /\ _disposables (fst (initialize w prManager this))
       = _disposables (constructor w0 telemetry)
         ++ initializeSubscriptions w prManager
    /\ length (_disposables (fst (initialize w prManager this)))
       = 9 + length (PullRequestManager.folderManagers (managers w prManager))
    /\ _onDidChangeTreeData (fst (initialize w prManager this))
       = refreshPayloads history ++ [None].
Proof.
  intros w0 telemetry history w prManager H this.
  destruct (run_without_initialize history (constructor w0 telemetry) H)
    as (Hd & Hm & Hi & He).
  fold this in Hd, Hm, Hi, He.
  rewrite initialize_unfold, Hi.
  cbn [constructor _initialized fst snd _prManager _disposables
       _onDidChangeTreeData set_onDidChangeTreeData set_disposables
       set_prManager set_initialized].
  rewrite Hd, He. unfold initializeSubscriptions.
  cbn [constructor _disposables _onDidChangeTreeData app].
  repeat split; try reflexivity.
  cbn [length]. rewrite length_app, length_map. cbn [length]. lia.
Qed.

(** X6.  Until [initialize] is called, every [getChildren] call, at the
    root or on an element, returns exactly the folder placeholder:
    [NoOpenFolder] when the workspace has no folders ([undefined]), and
    [NoGitRepositories] otherwise; and it leaves the provider unchanged. *)
Theorem getChildren_before_initialize :
  forall w0 telemetry history w element,
    withoutInitialize history = true ->
    let this := run history (constructor w0 telemetry) in
    getChildren w element this =
    (this,
     Ok [PRCategoryActionNode (_view this)
           match workspaceFolders w with
           | None => PRCategoryActionType.NoOpenFolder
           | Some _ => PRCategoryActionType.NoGitRepositories
           end]).
Proof.
  intros w0 telemetry history w element H this.
  destruct (run_without_initialize history (constructor w0 telemetry) H)
    as (_ & Hm & _).
  fold this in Hm. cbn in Hm.
  unfold getChildren. unfold_bind. rewrite Hm.
  destruct (workspaceFolders w); reflexivity.
Qed.

(** X7.  While the manager is Initializing, [getChildren] returns exactly
    [Initializing], at the root and on every element, whatever remotes and
    however many folder managers there are, and it neither disposes the
    tracked generation nor probes. *)
Theorem getChildren_while_initializing :
  forall w element this m,
    _prManager this = Some m ->
    PullRequestManager.state (managers w m) = PRManagerState.Initializing ->
    getChildren w element this =
    (this,
     Ok [PRCategoryActionNode (_view this) PRCategoryActionType.Initializing]).
Proof.
  intros w element this m Hm Hs.
  unfold getChildren. unfold_bind. rewrite Hm, Hs. reflexivity.
Qed.

(** X8.  Which methods fire a change event.  [getChildren], at the root or
    on an element and in every branch, fires none; [dispose()] fires none;
    an [initialize] that throws fires none; a succeeding [initialize] fires
    exactly one whole-tree event; [refresh(node)] fires exactly one event,
    carrying [node]. *)
Theorem change_events_by_method :
  forall w element node prManager this,
    _onDidChangeTreeData (fst (getChildren w element this))
    = _onDidChangeTreeData this
    /\ _onDidChangeTreeData (fst (dispose this)) = _onDidChangeTreeData this
    /\ (_initialized this = true ->
        _onDidChangeTreeData (fst (initialize w prManager this))
        = _onDidChangeTreeData this)
    /\ (_initialized this = false ->
        _onDidChangeTreeData (fst (initialize w prManager this))
        = _onDidChangeTreeData this ++ [None])
    /\ _onDidChangeTreeData (fst (refresh node this))
       = _onDidChangeTreeData this ++ [node].
Proof.
  intros w element node prManager this.
  destruct (getChildren_effect w element this) as ((He & _) & _).
  split; [exact He|]. split; [reflexivity|].
  rewrite initialize_unfold.
  split; [|split].
  - intros Hi. rewrite Hi. reflexivity.
  - intros Hi. rewrite Hi. reflexivity.
  - destruct node; reflexivity.
Qed.

(** What one call can do to the classification cache and the probe
    counter. *)
Lemma step_cache w c this :
  (_isVSO (step w c this) = _isVSO this
   /\ probeCalls (step w c this) = probeCalls this)
  \/ (c = CallGetChildren None
      /\ reachesSubtree w this = true
      /\ _isVSO this = None
      /\ probeCalls (step w c this) = S (probeCalls this)
      /\ _isVSO (step w c this)
         = match asExternalUri w (callbackUriOf w) with
           | Ok callbackUri =>
               Some (isWorkspacesAuthority (Uri.authority callbackUri))
           | Throw _ => None
           end).
Proof.
  destruct c as [m|element|node|].
  - left. cbn [step]. rewrite initialize_unfold.
    destruct (_initialized this); cbn; auto.
  - destruct element as [element|].
    { left. cbn [step]. rewrite getChildren_element_state. auto. }
    destruct (reachesSubtree w this) eqn:Hr.
    2:{ left. cbn [step]. rewrite getChildren_placeholder_state by exact Hr.
        auto. }
    assert (exists m, _prManager this = Some m) as [m Hm].
    { unfold reachesSubtree in Hr. destruct (_prManager this); eauto.
      discriminate. }
    cbn [step]. rewrite (getChildren_root_unfold w this m Hm Hr). cbv zeta.
    pose proof (disposeChildren_frame this) as F0. cbv zeta in F0.
    destruct F0 as (_ & _ & _ & _ & _ & _ & a6 & _ & a8 & _).
    rewrite (isVSO_unfold w (disposeChildren this)), a6, a8.
    destruct (Nat.eqb _ 1).
    + destruct (nth_error _ 0).
      * destruct (_isVSO this) eqn:Hv; [left; cbn; auto|].
        right. destruct (asExternalUri w (callbackUriOf w)); cbn; auto 6.
      * left. cbn. auto.
    + destruct (_isVSO this) eqn:Hv; [left; cbn; auto|].
      right. destruct (asExternalUri w (callbackUriOf w)); cbn; auto 6.
  - left. destruct node; cbn; auto.
  - left. cbn. auto.
Qed.

Lemma run_cached history : forall this b,
  _isVSO this = Some b ->
  _isVSO (run history this) = Some b
  /\ probeCalls (run history this) = probeCalls this.
Proof.
  induction history as [|[w c] rest IH]; intros this b H; simpl; [auto|].
  destruct (step_cache w c this) as [[Hv Hp]|(_ & _ & Hn & _)];
    [|congruence].
  destruct (IH (step w c this) b) as [Hv' Hp'].
  - rewrite Hv. exact H.
  - split; congruence.
Qed.

(** X9.  The classification is set once: when a value is cached, any
    history of calls on the provider keeps that value and makes no further
    probe. *)
Theorem classification_never_invalidated :
  forall history this b,
    _isVSO this = Some b ->
    _isVSO (run history this) = Some b
    /\ probeCalls (run history this) = probeCalls this.
Proof.
  intros history this b H. apply run_cached. exact H.
Qed.

(** X10.  One call makes at most one probe, and the only call that probes
    is a root pass that reaches the subtree part while nothing is cached:
    calls on an element, placeholder passes, [initialize], [refresh] and
    [dispose] never probe. *)
Theorem probe_only_on_uncached_subtree_pass :
  forall w c this,
    probeCalls (step w c this) <= S (probeCalls this)
    /\ (probeCalls (step w c this) <> probeCalls this ->
        c = CallGetChildren None
        /\ reachesSubtree w this = true
        /\ _isVSO this = None).
Proof.
  intros w c this.
  destruct (step_cache w c this) as [[_ Hp]|(Hc & Hr & Hn & Hp & _)];
    rewrite Hp; split; try lia; auto.
Qed.

Lemma isVSO_resolved_is_cached w this :
  forall b, snd (isVSO w this) = Ok b -> _isVSO (fst (isVSO w this)) = Some b.
Proof.
  intros b. rewrite isVSO_unfold.
  destruct (_isVSO this) eqn:Hv; cbn [fst snd].
  - intros H. inversion H; subst. exact Hv.
  - destruct (asExternalUri w (callbackUriOf w)); cbn [fst snd];
      intros H; inversion H; reflexivity.
Qed.

(** An installing pass leaves the value it classified with in the cache. *)
Lemma getChildren_installs_cache w this b :
  installsGeneration w this = true ->
  snd (isVSO w this) = Ok b ->
  _isVSO (fst (getChildren w None this)) = Some b.
Proof.
  unfold installsGeneration. intros H Hb.
  apply andb_true_iff in H. destruct H as [H _].
  apply andb_true_iff in H. destruct H as [Hr Hl].
  destruct (_prManager this) as [m|] eqn:Hm; [|discriminate].
  apply negb_true_iff in Hl.
  rewrite (getChildren_root_unfold w this m Hm Hr). cbv zeta. rewrite Hl.
  rewrite <- (isVSO_disposeChildren w this) in Hb.
  pose proof (isVSO_resolved_is_cached w (disposeChildren this) b Hb) as Hc.
  destruct (isVSO w (disposeChildren this)) as [this1 r].
  cbn [fst snd] in *. subst r. cbn. exact Hc.
Qed.

Lemma newWorkspaceFolderNodes_flag view telemetry b fms : forall oid,
  Forall (fun r => exists oid' view' uri fm telemetry',
            r = WorkspaceFolderNode oid' view' uri fm telemetry' b)
    (newWorkspaceFolderNodes oid view telemetry b fms).
Proof.
  induction fms as [|fm rest IH]; intros oid; simpl; constructor.
  - repeat eexists.
  - apply IH.
Qed.

(** X11.  Every generation carries the same environment flag: the nodes of
    a generation installed by one root pass and the nodes of a generation
    installed by any later root pass, whatever calls and whatever changes
    of the probe's answer lie between, were all built with one and the same
    [isVso] value. *)
Theorem generations_share_classification :
  forall w1 this history w2 G1 G2,
    installsGeneration w1 this = true ->
    snd (getChildren w1 None this) = Ok G1 ->
    installsGeneration w2 (run history (step w1 (CallGetChildren None) this))
    = true ->
    snd (getChildren w2 None
           (run history (step w1 (CallGetChildren None) this))) = Ok G2 ->
    exists b,
      Forall (fun r => exists oid view uri fm telemetry,
                r = WorkspaceFolderNode oid view uri fm telemetry b)
        (G1 ++ G2).
Proof.
  intros w1 this history w2 G1 G2 Hi1 HG1 Hi2 HG2.
  destruct (getChildren_installs w1 this Hi1) as (m1 & b1 & _ & I1).
  cbv zeta in I1. destruct I1 as (R1 & Hb1 & _).
  destruct (getChildren_installs w2 _ Hi2) as (m2 & b2 & _ & I2).
  cbv zeta in I2. destruct I2 as (R2 & Hb2 & _).
  pose proof (getChildren_installs_cache w1 this b1 Hi1 Hb1) as Hc.
  destruct (run_cached history
              (step w1 (CallGetChildren None) this) b1 Hc) as [Hc' _].
  rewrite isVSO_unfold, Hc' in Hb2. cbn in Hb2.
  assert (b2 = b1) by congruence. subst b2.
  exists b1. apply Forall_app. split.
  - assert (E : G1 = newWorkspaceFolderNodes (nextObjectId this) (_view this)
                       (_telemetry this) b1
                       (PullRequestManager.folderManagers (managers w1 m1)))
      by congruence.
    rewrite E. apply newWorkspaceFolderNodes_flag.
  - assert (E : G2 = newWorkspaceFolderNodes
                       (nextObjectId (run history (step w1 (CallGetChildren None) this)))
                       (_view (run history (step w1 (CallGetChildren None) this)))
                       (_telemetry (run history (step w1 (CallGetChildren None) this)))
                       b1
                       (PullRequestManager.folderManagers (managers w2 m2)))
      by congruence.
    rewrite E. apply newWorkspaceFolderNodes_flag.
Qed.

(** X12.  Only a root pass that reaches the subtree part releases tree
    nodes.  After a root pass installed generation [G], any history without
    such a pass (element calls, placeholder passes, refreshes, failing
    [initialize] calls and even [dispose()]) leaves every node of [G]
    undisposed and still tracked: [dispose()] releases the registrations,
    never the nodes. *)
Theorem tracked_generation_outlives_dispose :
  forall w0 telemetry pre w later G,
    let this := run pre (constructor w0 telemetry) in
    let installed := step w (CallGetChildren None) this in
    installsGeneration w this = true ->
    snd (getChildren w None this) = Ok G ->
    noSubtreePass later installed = true ->
    forall r, In r G ->
      disposeCount (disposeCalls (run later installed)) (NodeDisposable r) = 0
      /\ In (NodeDisposable r) (_childrenDisposables (run later installed)).
Proof.
  intros w0 telemetry pre w later G this installed Hi HG Hlater r Hr.
  assert (Hw : wellTracked this)
    by (apply run_wellTracked, constructor_wellTracked).
  assert (Hw1 : wellTracked installed) by (apply step_wellTracked; exact Hw).
  destruct (getChildren_installs w this Hi) as (m & b & _ & I).
  cbv zeta in I. destruct I as (R & _ & C & D & _).
  assert (E : G = newWorkspaceFolderNodes (nextObjectId this) (_view this)
                    (_telemetry this) b
                    (PullRequestManager.folderManagers (managers w m)))
    by congruence.
  change (fst (getChildren w None this)) with installed in C, D.
  rewrite <- E in C.
  destruct (run_between_subtree_passes later installed Hlater Hw1)
    as (Mc & _ & Md).
  split.
  - rewrite Md, D. apply wellTracked_fresh_count; [exact Hw|].
    rewrite E in Hr. apply (newWorkspaceFolderNodes_bounds _ _ _ _ _ _ Hr).
  - rewrite Mc, C. apply in_map. exact Hr.
Qed.

(** A subtree root pass that installs nothing disposes the tracked children
    and keeps tracking them. *)
Lemma disposesWithoutInstalling_effect w this :
  disposesWithoutInstalling w this = true ->
  _childrenDisposables (step w (CallGetChildren None) this)
  = _childrenDisposables this
  /\ disposeCalls (step w (CallGetChildren None) this)
     = disposeCalls this ++ _childrenDisposables this.
Proof.
  unfold disposesWithoutInstalling. intros H.
  apply andb_true_iff in H. destruct H as [Hr Hn].
  apply negb_true_iff in Hn.
  destruct (step_effect w (CallGetChildren None) this) as (_ & Ed & Ec).
  assert (exists m, _prManager this = Some m) as [m Hm].
  { unfold reachesSubtree in Hr. destruct (_prManager this); eauto.
    discriminate. }
  pose proof (disposeChildren_frame this) as F0. cbv zeta in F0.
  destruct F0 as (_ & _ & a2 & _ & _ & _ & a6 & _ & _ & _).
  pose proof (disposeChildren_calls this) as C0.
  pose proof (isVSO_frame w (disposeChildren this)) as F1. cbv zeta in F1.
  destruct F1 as (_ & _ & b2 & _ & _ & _ & _ & b7 & _).
  cbn [step]. rewrite (getChildren_root_unfold w this m Hm Hr). cbv zeta.
  unfold installsGeneration in Hn. rewrite Hr, Hm in Hn. cbn [andb] in Hn.
  destruct (Nat.eqb (length _) 1) eqn:Hl.
  - destruct (nth_error _ 0).
    + destruct (isVSO w (disposeChildren this)) as [this1 [b|e]];
        cbn [fst snd] in *; split; congruence.
    + cbn [fst]. split; congruence.
  - cbn [negb andb] in Hn.
    rewrite (isVSO_unfold w (disposeChildren this)), a6.
    destruct (_isVSO this); [discriminate|].
    destruct (asExternalUri w (callbackUriOf w)); [discriminate|].
    cbn. split; congruence.
Qed.

Lemma disposesWithoutInstalling_repeated ws : forall this d,
  allDisposeWithoutInstalling ws this = true ->
  _childrenDisposables (rootPasses ws this) = _childrenDisposables this
  /\ disposeCount (disposeCalls (rootPasses ws this)) d
     = disposeCount (disposeCalls this) d
       + length ws * disposeCount (_childrenDisposables this) d.
Proof.
  unfold rootPasses.
  induction ws as [|w rest IH]; intros this d H; cbn [map run length].
  - split; [reflexivity | lia].
  - cbn [allDisposeWithoutInstalling] in H.
    apply andb_true_iff in H. destruct H as [Hw H].
    destruct (disposesWithoutInstalling_effect w this Hw) as [Ec Ed].
    destruct (IH _ d H) as [Ic Id].
    rewrite Ic, Id, Ec, Ed, disposeCount_app. split; [reflexivity | lia].
Qed.

(** X13.  A root pass that reaches the subtree part without installing (the
    single-folder branch, which returns at line 172) disposes the tracked
    generation without replacing it.  After a root pass installed [G], [k]
    successive root passes of that kind leave [G] tracked and have called
    [dispose()] on each of its nodes exactly [k] times. *)
Theorem stale_generation_disposed_every_pass :
  forall w0 telemetry pre w ws G,
    let this := run pre (constructor w0 telemetry) in
    let installed := step w (CallGetChildren None) this in
    installsGeneration w this = true ->
    snd (getChildren w None this) = Ok G ->
    allDisposeWithoutInstalling ws installed = true ->
    _childrenDisposables (rootPasses ws installed) = map NodeDisposable G
    /\ forall r, In r G ->
         disposeCount (disposeCalls (rootPasses ws installed))
           (NodeDisposable r)
         = length ws.
Proof.
  intros w0 telemetry pre w ws G this installed Hi HG Hws.
  assert (Hw : wellTracked this)
    by (apply run_wellTracked, constructor_wellTracked).
  destruct (getChildren_installs w this Hi) as (m & b & _ & I).
  cbv zeta in I. destruct I as (R & _ & C & D & _).
  assert (E : G = newWorkspaceFolderNodes (nextObjectId this) (_view this)
                    (_telemetry this) b
                    (PullRequestManager.folderManagers (managers w m)))
    by congruence.
  change (fst (getChildren w None this)) with installed in C, D.
  rewrite <- E in C.
  split.
  - destruct (disposesWithoutInstalling_repeated ws installed
                (NodeDisposable (PRCategoryActionNode (_view this)
                                   PRCategoryActionType.Empty)) Hws)
      as [Hc _].
    rewrite Hc. exact C.
  - intros r Hr.
    destruct (disposesWithoutInstalling_repeated ws installed
                (NodeDisposable r) Hws) as [_ Hd].
    rewrite Hd, D, C.
    rewrite wellTracked_fresh_count; [|exact Hw|].
    + rewrite E. rewrite newWorkspaceFolderNodes_once; [lia|].
      rewrite <- E. exact Hr.
    + rewrite E in Hr. apply (newWorkspaceFolderNodes_bounds _ _ _ _ _ _ Hr).
Qed.

Lemma isVSO_throws w this e :
  snd (isVSO w this) = Throw e -> asExternalUri w (callbackUriOf w) = Throw e.
Proof.
  rewrite isVSO_unfold.
  destruct (_isVSO this); [discriminate|].
  destruct (asExternalUri w (callbackUriOf w)); cbn; congruence.
Qed.

(** X14.  [getChildren] raises no error of its own.  When it throws, the
    error is the rejection of the probe or an error thrown by the folder's
    category-node builder (root pass), or the error thrown by the element's
    own [getChildren] (element call); the property accesses on the manager
    and on the first folder manager are all guarded. *)
Theorem getChildren_throws_only_foreign_errors :
  forall w element this e,
    snd (getChildren w element this) = Throw e ->
    (element = None
     /\ (asExternalUri w (callbackUriOf w) = Throw e
         \/ exists fm b,
              getCategoryTreeNodes w fm (_telemetry this) b (_view this)
              = Throw e))
    \/ (exists node, element = Some node
                     /\ TreeNode_getChildren w node = Throw e).
Proof.
  intros w element this e H.
  destruct (reachesSubtree w this) eqn:Hr.
  - assert (exists m, _prManager this = Some m) as [m Hm].
    { unfold reachesSubtree in Hr. destruct (_prManager this); eauto.
      discriminate. }
    destruct element as [node|].
    + right. exists node. split; [reflexivity|].
      rewrite (getChildren_element_unfold w this m node Hm Hr) in H.
      cbn [snd] in H. destruct (Nat.eqb _ 0); [discriminate | exact H].
    + left. split; [reflexivity|].
      rewrite (getChildren_root_result w this m Hm Hr) in H. cbv zeta in H.
      destruct (snd (isVSO w this)) as [b|e'] eqn:Hv.
      * destruct (PullRequestManager.folderManagers (managers w m))
          as [|fm [|fm' rest]]; cbn in H; try discriminate.
        right. exists fm, b. exact H.
      * left. apply (isVSO_throws w this).
        destruct (PullRequestManager.folderManagers (managers w m))
          as [|fm [|fm' rest]]; cbn in H; congruence.
  - exfalso. unfold reachesSubtree in Hr.
    unfold getChildren in H. unfold_bind.
    destruct (_prManager this) as [m|] eqn:Hm.
    + destruct (PRManagerState.eqb _ PRManagerState.Initializing);
        [discriminate|].
      cbn [negb andb] in Hr. apply negb_false_iff in Hr. rewrite Hr in H.
      unfold needsRemotes in H. unfold_bind. rewrite Hm in H.
      destruct (PRManagerState.eqb _ _); [discriminate|].
      destruct (remotesSetting w); discriminate.
    + destruct (workspaceFolders w); discriminate.
Qed.

(** X15.  A rejected probe is never remembered: over any run of sequential
    [isVSO] calls that all find the probe rejecting, every call rethrows
    its own probe's error, every call probes again, and nothing is cached
    at the end. *)
Theorem isVSO_retries_after_every_rejection :
  forall ws this,
    _isVSO this = None ->
    Forall (fun w => exists e, asExternalUri w (callbackUriOf w) = Throw e) ws ->
    _isVSO (fst (isVSO_each ws this)) = None
    /\ probeCalls (fst (isVSO_each ws this)) = probeCalls this + length ws
    /\ snd (isVSO_each ws this)
       = map (fun w => match asExternalUri w (callbackUriOf w) with
                       | Ok callbackUri =>
                           Ok (isWorkspacesAuthority (Uri.authority callbackUri))
                       | Throw e => Throw e
                       end) ws.
Proof.
  induction ws as [|w rest IH]; intros this Hv Hall; cbn [isVSO_each].
  - cbn. auto.
  - inversion Hall as [|w' rest' [e He] Hrest]; subst.
    rewrite isVSO_unfold, Hv, He. cbv zeta.
    destruct (IH (set_probeCalls (S (probeCalls this)) this) Hv Hrest)
      as (Iv & Ip & Ir).
    destruct (isVSO_each rest (set_probeCalls (S (probeCalls this)) this))
      as [this2 rs].
    cbn [fst snd] in *. rewrite Iv, Ip, Ir. cbn [map length probeCalls
      set_probeCalls]. rewrite He.
    repeat split; try reflexivity. lia.
Qed.

Lemma substring_append_right p : forall t,
  substring (String.length p) (String.length t) (p ++ t)%string = t.
Proof.
  induction p as [|c p IH]; intros t; simpl.
  - induction t as [|c t IHt]; simpl; [reflexivity|].
    rewrite IHt. reflexivity.
  - apply IH.
Qed.

Lemma length_string_append p : forall t,
  String.length (p ++ t)%string = String.length p + String.length t.
Proof.
  induction p as [|c p IH]; intros t; simpl; [|rewrite IH]; reflexivity.
Qed.

Lemma substring_split s : forall n,
  n <= String.length s ->
  s = (substring 0 n s ++ substring n (String.length s - n) s)%string.
Proof.
  induction s as [|c s IH]; intros n Hn; simpl in *.
  - destruct n; reflexivity.
  - destruct n as [|n]; simpl.
    + f_equal. rewrite (IH 0 (Nat.le_0_l _)) at 1.
      simpl. destruct s; simpl; rewrite ?Nat.sub_0_r; reflexivity.
    + f_equal. apply IH. lia.
Qed.

(** [endsWith] is the suffix test. *)
Lemma endsWith_iff s t :
  endsWith s t = true <-> exists p, s = (p ++ t)%string.
Proof.
  unfold endsWith. cbv zeta. rewrite andb_true_iff, Nat.leb_le, String.eqb_eq.
  split.
  - intros [Hle Heq].
    exists (substring 0 (String.length s - String.length t) s).
    rewrite (substring_split s (String.length s - String.length t)) at 1
      by lia.
    replace (String.length s - (String.length s - String.length t))
      with (String.length t) by lia.
    rewrite Heq. reflexivity.
  - intros [p ->]. rewrite length_string_append. split; [lia|].
    replace (String.length p + String.length t - String.length t)
      with (String.length p) by lia.
    apply substring_append_right.
Qed.

(** X16.  When [isVSO] probes and the probe resolves, the answer is [true]
    exactly when the authority of the resolved URI is some text followed by
    one of the three workspace host names; no dot is required before the
    host name. *)
Theorem isVSO_classifies_by_suffix :
  forall w this callbackUri,
    _isVSO this = None ->
    asExternalUri w (callbackUriOf w) = Ok callbackUri ->
    (snd (isVSO w this) = Ok true
     <-> exists prefix host,
           In host [ "workspaces.github.com";
                     "workspaces-dev.github.com";
                     "workspaces-ppe.github.com" ]
           /\ Uri.authority callbackUri = (prefix ++ host)%string)
    /\ (snd (isVSO w this) = Ok false
        \/ snd (isVSO w this) = Ok true).
Proof.
  intros w this callbackUri Hv Hp.
  rewrite isVSO_unfold, Hv, Hp. cbn [snd].
  split.
  - unfold isWorkspacesAuthority. split.
    + intros H. injection H as H'.
      apply orb_true_iff in H'. destruct H' as [H'|H'].
      * apply orb_true_iff in H'. destruct H' as [H'|H'];
          apply endsWith_iff in H'; destruct H' as [p Hp'].
        -- exists p, "workspaces.github.com". split; [|exact Hp'].
           left. reflexivity.
        -- exists p, "workspaces-dev.github.com". split; [|exact Hp'].
           right. left. reflexivity.
      * apply endsWith_iff in H'. destruct H' as [p Hp'].
        exists p, "workspaces-ppe.github.com". split; [|exact Hp'].
        right. right. left. reflexivity.
    + intros (p & host & Hin & Heq). f_equal.
      assert (He : endsWith (Uri.authority callbackUri) host = true)
        by (apply endsWith_iff; exists p; exact Heq).
      simpl in Hin. destruct Hin as [<-|[<-|[<-|[]]]]; rewrite He;
        rewrite ?orb_true_r; reflexivity.
  - destruct (isWorkspacesAuthority _); auto.
Qed.

(** X17.  The configuration command does not guard its access to the
    manager: invoked on a provider on which [initialize] has not been
    called, it throws the engine's TypeError, whatever the user would have
    picked, and leaves the provider unchanged. *)
Theorem configurePRViewlet_before_initialize :
  forall w0 telemetry history w publisher name showQuickPick,
    withoutInitialize history = true ->
    let this := run history (constructor w0 telemetry) in
    configurePRViewlet w publisher name showQuickPick this
    = (this, Throw TypeError).
Proof.
  intros w0 telemetry history w publisher name showQuickPick H this.
  destruct (run_without_initialize history (constructor w0 telemetry) H)
    as (_ & Hm & _).
  fold this in Hm. cbn in Hm.
  unfold configurePRViewlet. unfold_bind. rewrite Hm. reflexivity.
Qed.

Lemma configurePRViewlet_state w publisher name showQuickPick this :
  fst (configurePRViewlet w publisher name showQuickPick this) = this.
Proof.
  unfold configurePRViewlet. unfold_bind.
  destruct (_prManager this); [|reflexivity].
  destruct (showQuickPick _); [|reflexivity].
  repeat (destruct (String.eqb _ _); [reflexivity|]). reflexivity.
Qed.

(** X18.  With a manager attached, the configuration command changes
    nothing in the provider; it offers sign-out only in state
    RepositoriesLoaded; a dismissed pick runs no command; and when the user
    picks one of the items offered, a command is run, which is the sign-out
    command only if the manager state is RepositoriesLoaded. *)
Theorem configurePRViewlet_offers_and_runs :
  forall w publisher name showQuickPick this m,
    _prManager this = Some m ->
    let loggedIn :=
      PRManagerState.eqb (PullRequestManager.state (managers w m))
        PRManagerState.RepositoriesLoaded in
    let outcome :=
      snd (configurePRViewlet w publisher name showQuickPick this) in
    fst (configurePRViewlet w publisher name showQuickPick this) = this
    /\ (In "Sign out of GitHub..." (configurationItems loggedIn)
        <-> PullRequestManager.state (managers w m)
            = PRManagerState.RepositoriesLoaded)
    /\ (showQuickPick (configurationItems loggedIn) = None ->
        outcome = Ok None)
    /\ (forall choice,
          showQuickPick (configurationItems loggedIn) = Some choice ->
          In choice (configurationItems loggedIn) ->
          (exists command, outcome = Ok (Some command))
          /\ (outcome = Ok (Some (ExecuteCommand "auth.signout" [])) ->
              PullRequestManager.state (managers w m)
              = PRManagerState.RepositoriesLoaded)).
Proof.
  intros w publisher name showQuickPick this m Hm loggedIn outcome.
  split; [apply configurePRViewlet_state|].
  assert (Hitems : In "Sign out of GitHub..." (configurationItems loggedIn)
                   <-> PullRequestManager.state (managers w m)
                       = PRManagerState.RepositoriesLoaded).
  { rewrite <- PRManagerState_eqb_eq. fold loggedIn.
    unfold configurationItems.
    destruct loggedIn; simpl; split; intros H; auto.
    - destruct H as [H|[H|[]]]; discriminate H.
    - discriminate H. }
  split; [exact Hitems|].
  unfold outcome, configurePRViewlet. unfold_bind. rewrite Hm.
  fold loggedIn. cbn [snd].
  split.
  - intros Hnone. rewrite Hnone. reflexivity.
  - intros choice Hsome Hin. rewrite Hsome.
    assert (Hcases : choice = "Configure Remotes..."
                     \/ choice = "Configure Queries..."
                     \/ (choice = "Sign out of GitHub..."
                         /\ loggedIn = true)).
    { unfold configurationItems in Hin.
      destruct loggedIn; simpl in Hin;
        repeat (destruct Hin as [Hin|Hin]; auto); contradiction. }
    destruct Hcases as [->|[->|[-> Hl]]]; cbn.
    + split; [eexists; reflexivity | discriminate].
    + split; [eexists; reflexivity | discriminate].
    + split; [eexists; reflexivity|].
      intros _. apply Hitems. rewrite Hl. simpl. auto.
Qed.

End Provider.

(** ** The properties at concrete inputs *)

Local Abbreviation sampleGetChildren :=
  (getChildren sampleCategoryTreeNodes sampleNodeChildren).
Local Abbreviation sampleStep := (step sampleCategoryTreeNodes sampleNodeChildren).
Local Abbreviation sampleRun := (run sampleCategoryTreeNodes sampleNodeChildren).
Local Abbreviation sampleView := {| treeId := "pr:github"; showCollapseAll := true |}.
Local Abbreviation placeholder type := (PRCategoryActionNode sampleView type).
Local Abbreviation folderNode oid fm :=
  (WorkspaceFolderNode oid sampleView
     (Repository.rootUri (FolderRepositoryManager.repository fm))
     fm sampleTelemetry false).

(** C1 fails at the root.  In a loaded single-folder workspace whose
    repository has no remote at all, the root pass answers [NoRemotes], not
    [Empty]; and when the folder manager still lists a GitHub remote that the
    repository no longer has, the root pass answers with the folder's
    category nodes, again not [Empty]. *)
Lemma root_pass_without_remotes_is_not_empty :
  (_prManager sampleProvider = Some 0
   /\ noRepositoryRemotes
        (PullRequestManager.folderManagers (managers noRemotesAnywhere 0))
   /\ snd (sampleGetChildren noRemotesAnywhere None sampleProvider)
      = Ok [placeholder PRCategoryActionType.NoRemotes]
   /\ snd (sampleGetChildren noRemotesAnywhere None sampleProvider)
      <> Ok [placeholder PRCategoryActionType.Empty])
  /\ (noRepositoryRemotes
        (PullRequestManager.folderManagers
           (managers
              (worldOf PRManagerState.RepositoriesLoaded [folderWithStaleRemote])
              0))
      /\ snd (sampleGetChildren
                (worldOf PRManagerState.RepositoriesLoaded [folderWithStaleRemote])
                None sampleProvider)
         = Ok [CategoryTreeNode 1000 "All" false]).
Proof.
  split.
  - split; [reflexivity|]. split; [repeat constructor|].
    split; [reflexivity|]. vm_compute. discriminate.
  - split; [repeat constructor | reflexivity].
Qed.

Lemma getChildren_element_empty_override_witness :
  _prManager sampleProvider = Some 0
  /\ sampleGetChildren
       (worldOf PRManagerState.RepositoriesLoaded [folderWithStaleRemote])
       (Some (CategoryTreeNode 1000 "All" false)) sampleProvider
     = (sampleProvider, Ok [placeholder PRCategoryActionType.Empty]).
Proof.
  split; [reflexivity|].
  apply (getChildren_element_empty_override sampleCategoryTreeNodes
           sampleNodeChildren
           (worldOf PRManagerState.RepositoriesLoaded [folderWithStaleRemote])
           sampleProvider 0 (CategoryTreeNode 1000 "All" false)).
  - reflexivity.
  - simpl. discriminate.
  - simpl. intros H. inversion H as [|fm fms Hfm _]. discriminate Hfm.
  - simpl. repeat constructor.
Defined.

Lemma getChildren_needs_remotes_witness :
  _prManager sampleProvider = Some 0
  /\ noGitHubRemotes
       (PullRequestManager.folderManagers (managers noRemotesAnywhere 0))
  /\ sampleGetChildren
       (withRemotesSetting (Some ["origin"; "upstream"]) noRemotesAnywhere)
       None sampleProvider
     = (sampleProvider,
        Ok [ placeholder PRCategoryActionType.NoMatchingRemotes;
             placeholder PRCategoryActionType.ConfigureRemotes ])
  /\ sampleGetChildren noRemotesAnywhere None sampleProvider
     = (sampleProvider, Ok [placeholder PRCategoryActionType.NoRemotes])
  /\ sampleGetChildren
       (worldOf PRManagerState.NeedsAuthentication [folderWithoutRemote])
       None sampleProvider
     = (sampleProvider, Ok []).
Proof.
  assert (Hg : noGitHubRemotes [folderWithoutRemote]) by (repeat constructor).
  split; [reflexivity|]. split; [exact Hg|].
  split; [|split].
  - apply (getChildren_needs_remotes sampleCategoryTreeNodes sampleNodeChildren
             (withRemotesSetting (Some ["origin"; "upstream"]) noRemotesAnywhere)
             None sampleProvider 0);
      simpl; (reflexivity || discriminate || exact Hg).
  - apply (getChildren_needs_remotes sampleCategoryTreeNodes sampleNodeChildren
             noRemotesAnywhere None sampleProvider 0);
      simpl; (reflexivity || discriminate || exact Hg).
  - apply (getChildren_needs_remotes sampleCategoryTreeNodes sampleNodeChildren
             (worldOf PRManagerState.NeedsAuthentication [folderWithoutRemote])
             None sampleProvider 0);
      simpl; (reflexivity || discriminate || exact Hg).
Defined.

Lemma two_folders_one_without_remotes_witness :
  snd (sampleGetChildren twoFolders None sampleProvider)
  = Ok [folderNode 0 folderWithRemote; folderNode 1 folderWithoutRemote]
  /\ sampleGetChildren twoFolders
       (Some (folderNode 1 folderWithoutRemote)) sampleProvider
     = (sampleProvider, Ok [CategoryTreeNode 2000 "Created By Me" false]).
Proof.
  assert (Hin1 : In folderWithRemote [folderWithRemote; folderWithoutRemote])
    by (simpl; tauto).
  assert (Hin2 : In folderWithoutRemote [folderWithRemote; folderWithoutRemote])
    by (simpl; tauto).
  assert (Hg : FolderRepositoryManager.getGitHubRemotes folderWithRemote <> [])
    by (simpl; discriminate).
  assert (Hr : Repository.remotes
                 (Repository.state
                    (FolderRepositoryManager.repository folderWithRemote))
               <> [])
    by (simpl; discriminate).
  destruct (two_folders_one_without_remotes sampleCategoryTreeNodes
              sampleNodeChildren twoFolders sampleProvider 0
              folderWithRemote folderWithoutRemote
              folderWithRemote folderWithoutRemote
              eq_refl eq_refl eq_refl Hin1 Hin2 Hg Hr eq_refl eq_refl)
    as (_ & Hroot & Helement).
  split.
  - rewrite Hroot. reflexivity.
  - apply Helement.
Defined.
(** C5 fails while the manager is Initializing: whatever the folder managers
    report, with one of them or with two, the root pass answers
    [Initializing]. *)
Lemma root_resolution_initializing_counterexample :
  (~ noGitHubRemotes
       (PullRequestManager.folderManagers
          (managers (worldOf PRManagerState.Initializing [folderWithRemote]) 0))
   /\ snd (sampleGetChildren
             (worldOf PRManagerState.Initializing [folderWithRemote])
             None sampleProvider)
      = Ok [placeholder PRCategoryActionType.Initializing]
   /\ snd (sampleGetChildren
             (worldOf PRManagerState.Initializing [folderWithRemote])
             None sampleProvider)
      <> sampleCategoryTreeNodes
           (worldOf PRManagerState.Initializing [folderWithRemote])
           folderWithRemote sampleTelemetry false sampleView)
  /\ (~ noGitHubRemotes
         (PullRequestManager.folderManagers
            (managers
               (worldOf PRManagerState.Initializing
                  [folderWithRemote; folderWithoutRemote]) 0))
      /\ snd (sampleGetChildren
                (worldOf PRManagerState.Initializing
                   [folderWithRemote; folderWithoutRemote])
                None sampleProvider)
         = Ok [placeholder PRCategoryActionType.Initializing]).
Proof.
  assert (Hg : forall rest, ~ noGitHubRemotes (folderWithRemote :: rest)).
  { intros rest H. inversion H as [|fm fms Hfm _]. discriminate Hfm. }
  split.
  - split; [apply Hg|]. split; [reflexivity|]. vm_compute. discriminate.
  - split; [apply Hg | reflexivity].
Qed.

Lemma root_resolution_by_folder_count_witness :
  snd (isVSO oneFolder sampleProvider) = Ok false
  /\ snd (sampleGetChildren oneFolder None sampleProvider)
     = Ok [CategoryTreeNode 1000 "All" false]
  /\ exists nodes,
       snd (sampleGetChildren twoFolders None sampleProvider) = Ok nodes
       /\ length nodes = 2
       /\ nth_error nodes 1 = Some (folderNode 1 folderWithoutRemote).
Proof.
  assert (Hg : forall rest, ~ noGitHubRemotes (folderWithRemote :: rest)).
  { intros rest H. inversion H as [|fm fms Hfm _]. discriminate Hfm. }
  assert (Hs : PRManagerState.RepositoriesLoaded <> PRManagerState.Initializing)
    by discriminate.
  split; [reflexivity|]. split.
  - destruct (root_resolution_by_folder_count sampleCategoryTreeNodes
                sampleNodeChildren oneFolder sampleProvider 0
                eq_refl Hs (Hg [])) as [Hone _].
    rewrite (Hone folderWithRemote eq_refl). reflexivity.
  - destruct (root_resolution_by_folder_count sampleCategoryTreeNodes
                sampleNodeChildren twoFolders sampleProvider 0
                eq_refl Hs (Hg [folderWithoutRemote])) as [_ Hmany].
    destruct (Hmany (le_n 2) false eq_refl) as (nodes & Hn & Hl & Hi).
    exists nodes. split; [exact Hn|]. split; [exact Hl|].
    exact (Hi 1 folderWithoutRemote eq_refl).
Defined.

Lemma successive_generations_disposed_once_witness :
  installsGeneration twoFolders sampleProvider = true
  /\ (forall r,
        In r [folderNode 0 folderWithRemote; folderNode 1 folderWithoutRemote] ->
        disposeCount
          (disposeCalls
             (sampleRun
                [ (twoFolders, CallGetChildren None);
                  (oneFolder, CallGetChildren None);
                  (twoFolders, CallDispose) ]
                (sampleStep twoFolders (CallGetChildren None)
                   (sampleRun
                      [ (twoFolders,
                         CallGetChildren (Some (folderNode 0 folderWithRemote)));
                        (worldOf PRManagerState.Initializing [folderWithRemote],
                         CallGetChildren None) ]
                      (sampleStep twoFolders (CallGetChildren None)
                         (sampleRun [(twoFolders, CallInitialize 0)]
                            (constructor twoFolders sampleTelemetry)))))))
          (NodeDisposable r)
        = 1).
Proof.
  split; [vm_compute; reflexivity|].
  intros r Hr.
  assert (Hi1 : installsGeneration twoFolders
                  (sampleRun [(twoFolders, CallInitialize 0)]
                     (constructor twoFolders sampleTelemetry)) = true)
    by (vm_compute; reflexivity).
  assert (HG1 : snd (sampleGetChildren twoFolders None
                       (sampleRun [(twoFolders, CallInitialize 0)]
                          (constructor twoFolders sampleTelemetry)))
                = Ok [ folderNode 0 folderWithRemote;
                       folderNode 1 folderWithoutRemote ])
    by (vm_compute; reflexivity).
  assert (Hmid : noSubtreePass sampleCategoryTreeNodes sampleNodeChildren
                   [ (twoFolders,
                      CallGetChildren (Some (folderNode 0 folderWithRemote)));
                     (worldOf PRManagerState.Initializing [folderWithRemote],
                      CallGetChildren None) ]
                   (sampleStep twoFolders (CallGetChildren None)
                      (sampleRun [(twoFolders, CallInitialize 0)]
                         (constructor twoFolders sampleTelemetry))) = true)
    by (vm_compute; reflexivity).
  assert (Hi2 : installsGeneration twoFolders
                  (sampleRun
                     [ (twoFolders,
                        CallGetChildren (Some (folderNode 0 folderWithRemote)));
                       (worldOf PRManagerState.Initializing [folderWithRemote],
                        CallGetChildren None) ]
                     (sampleStep twoFolders (CallGetChildren None)
                        (sampleRun [(twoFolders, CallInitialize 0)]
                           (constructor twoFolders sampleTelemetry)))) = true)
    by (vm_compute; reflexivity).
  assert (HG2 : snd (sampleGetChildren twoFolders None
                       (sampleRun
                          [ (twoFolders,
                             CallGetChildren
                               (Some (folderNode 0 folderWithRemote)));
                            (worldOf PRManagerState.Initializing
                               [folderWithRemote],
                             CallGetChildren None) ]
                          (sampleStep twoFolders (CallGetChildren None)
                             (sampleRun [(twoFolders, CallInitialize 0)]
                                (constructor twoFolders sampleTelemetry)))))
                = Ok [ folderNode 2 folderWithRemote;
                       folderNode 3 folderWithoutRemote ])
    by (vm_compute; reflexivity).
  destruct (successive_generations_disposed_once sampleCategoryTreeNodes
              sampleNodeChildren twoFolders sampleTelemetry
              [(twoFolders, CallInitialize 0)]
              twoFolders
              [ (twoFolders, CallGetChildren (Some (folderNode 0 folderWithRemote)));
                (worldOf PRManagerState.Initializing [folderWithRemote],
                 CallGetChildren None) ]
              twoFolders
              [ (twoFolders, CallGetChildren None);
                (oneFolder, CallGetChildren None);
                (twoFolders, CallDispose) ]
              [folderNode 0 folderWithRemote; folderNode 1 folderWithoutRemote]
              [folderNode 2 folderWithRemote; folderNode 3 folderWithoutRemote]
              Hi1 HG1 Hmid Hi2 HG2)
    as (H1 & _).
  exact (proj2 (proj2 (H1 r Hr))).
Defined.

Lemma isVSO_memoized_witness :
  isVSO (withProbe (Ok workspacesAuthority) twoFolders) sampleProvider
  = (set_isVSO (Some true) (set_probeCalls 1 sampleProvider), Ok true)
  /\ snd (isVSO_each
            [ twoFolders;
              withProbe (Throw networkDown) twoFolders;
              twoFolders ]
            (set_isVSO (Some true) (set_probeCalls 1 sampleProvider)))
     = [Ok true; Ok true; Ok true]
  /\ probeCalls
       (fst (isVSO_each
               [ twoFolders;
                 withProbe (Throw networkDown) twoFolders;
                 twoFolders ]
               (set_isVSO (Some true) (set_probeCalls 1 sampleProvider))))
     <= 1.
Proof.
  split; [reflexivity|].
  destruct (isVSO_memoized (withProbe (Ok workspacesAuthority) twoFolders)
              sampleProvider
              (set_isVSO (Some true) (set_probeCalls 1 sampleProvider))
              true eq_refl) as [_ H].
  destruct (H [ twoFolders;
                withProbe (Throw networkDown) twoFolders;
                twoFolders ]) as (Hr & _ & Hp).
  split; [exact Hr | exact Hp].
Defined.

Lemma isVSO_rejection_not_cached_witness :
  _isVSO sampleProvider = None
  /\ snd (isVSO (withProbe (Throw networkDown) twoFolders) sampleProvider)
     = Throw networkDown
  /\ snd (isVSO (withProbe (Ok workspacesAuthority) twoFolders)
            (fst (isVSO (withProbe (Throw networkDown) twoFolders)
                    sampleProvider)))
     = Ok true.
Proof.
  split; [reflexivity|].
  destruct (isVSO_rejection_not_cached
              (withProbe (Throw networkDown) twoFolders) sampleProvider
              networkDown eq_refl eq_refl) as (He & _ & Hnext).
  split; [exact He|].
  destruct (Hnext (withProbe (Ok workspacesAuthority) twoFolders)) as [_ Hr].
  exact Hr.
Defined.

Lemma initialize_twice_throws_witness :
  initialize twoFolders 0 (constructor twoFolders sampleTelemetry)
  = (sampleProvider, Ok tt)
  /\ snd (initialize oneFolder 1
            (sampleRun [(twoFolders, CallGetChildren None);
                        (twoFolders, CallRefresh None)] sampleProvider))
     = Throw alreadyInitialized.
Proof.
  split; [reflexivity|].
  rewrite (initialize_twice_throws sampleCategoryTreeNodes sampleNodeChildren
             twoFolders 0 (constructor twoFolders sampleTelemetry)
             sampleProvider eq_refl
             [(twoFolders, CallGetChildren None); (twoFolders, CallRefresh None)]
             oneFolder 1).
  reflexivity.
Defined.

Lemma initialize_failure_mutates_nothing_witness :
  _initialized sampleProvider = true
  /\ initialize oneFolder 1 sampleProvider
     = (sampleProvider, Throw alreadyInitialized).
Proof.
  split; [reflexivity|].
  exact (proj1 (initialize_failure_mutates_nothing oneFolder 1 sampleProvider
                  eq_refl)).
Defined.

Lemma placeholder_pass_keeps_generation_witness :
  placeholderPass (worldOf PRManagerState.Initializing [folderWithRemote])
    (sampleStep twoFolders (CallGetChildren None) sampleProvider)
  /\ _childrenDisposables
       (fst (sampleGetChildren
               (worldOf PRManagerState.Initializing [folderWithRemote]) None
               (sampleStep twoFolders (CallGetChildren None) sampleProvider)))
     = [ NodeDisposable (folderNode 0 folderWithRemote);
         NodeDisposable (folderNode 1 folderWithoutRemote) ]
  /\ disposeCalls
       (fst (sampleGetChildren
               (worldOf PRManagerState.Initializing [folderWithRemote]) None
               (sampleStep twoFolders (CallGetChildren None) sampleProvider)))
     = [].
Proof.
  assert (Hp : placeholderPass
                 (worldOf PRManagerState.Initializing [folderWithRemote])
                 (sampleStep twoFolders (CallGetChildren None) sampleProvider))
    by (left; reflexivity).
  split; [exact Hp|].
  destruct (placeholder_pass_keeps_generation sampleCategoryTreeNodes
              sampleNodeChildren
              (worldOf PRManagerState.Initializing [folderWithRemote]))
    as [Hkeep _].
  destruct (Hkeep _ Hp) as (_ & Hd & Hc).
  split.
  - rewrite Hc. reflexivity.
  - rewrite Hd. reflexivity.
Defined.

(** C2, at the failing input.  A provider initialised on two folders makes
    three root passes: with two folder managers, with one, with two again.
    The first installs [G1] (nodes 0 and 1).  The second takes the
    single-folder branch: it disposes [G1] (line 167), returns the folder's
    category nodes at line 172 and never reaches line 178, so [G1] is still
    the tracked list and the generation it returned is tracked nowhere.  The
    third disposes [G1] a second time.  After a final [dispose()] each node
    of [G1] has been disposed twice and the node of the single-folder
    generation not once. *)
Theorem single_folder_pass_breaks_single_disposal :
  snd (sampleGetChildren twoFolders None sampleProvider)
  = Ok [folderNode 0 folderWithRemote; folderNode 1 folderWithoutRemote]
  /\ snd (sampleGetChildren oneFolder None
            (sampleRun [(twoFolders, CallGetChildren None)] sampleProvider))
     = Ok [CategoryTreeNode 1000 "All" false]
  /\ _childrenDisposables
       (sampleRun [ (twoFolders, CallGetChildren None);
                    (oneFolder, CallGetChildren None) ] sampleProvider)
     = [ NodeDisposable (folderNode 0 folderWithRemote);
         NodeDisposable (folderNode 1 folderWithoutRemote) ]
  /\ disposeCalls
       (sampleRun [ (twoFolders, CallGetChildren None);
                    (oneFolder, CallGetChildren None) ] sampleProvider)
     = [ NodeDisposable (folderNode 0 folderWithRemote);
         NodeDisposable (folderNode 1 folderWithoutRemote) ]
  /\ disposeCalls
       (sampleRun [ (twoFolders, CallGetChildren None);
                    (oneFolder, CallGetChildren None);
                    (twoFolders, CallGetChildren None) ] sampleProvider)
     = [ NodeDisposable (folderNode 0 folderWithRemote);
         NodeDisposable (folderNode 1 folderWithoutRemote);
         NodeDisposable (folderNode 0 folderWithRemote);
         NodeDisposable (folderNode 1 folderWithoutRemote) ]
  /\ disposeCount
       (disposeCalls
          (sampleRun [ (twoFolders, CallGetChildren None);
                       (oneFolder, CallGetChildren None);
                       (twoFolders, CallGetChildren None);
                       (twoFolders, CallDispose) ] sampleProvider))
       (NodeDisposable (folderNode 0 folderWithRemote))
     = 2
  /\ disposeCount
       (disposeCalls
          (sampleRun [ (twoFolders, CallGetChildren None);
                       (oneFolder, CallGetChildren None);
                       (twoFolders, CallGetChildren None);
                       (twoFolders, CallDispose) ] sampleProvider))
       (NodeDisposable (folderNode 1 folderWithoutRemote))
     = 2
  /\ disposeCount
       (disposeCalls
          (sampleRun [ (twoFolders, CallGetChildren None);
                       (oneFolder, CallGetChildren None);
                       (twoFolders, CallGetChildren None);
                       (twoFolders, CallDispose) ] sampleProvider))
       (NodeDisposable (CategoryTreeNode 1000 "All" false))
     = 0.
Proof.
  repeat split; vm_compute; reflexivity.
Qed.

(** ** The further properties at concrete inputs *)

Lemma subscriptions_frozen_after_initialize_witness :
  _initialized sampleProvider = true
  /\ _prManager
       (sampleRun [ (oneFolder, CallInitialize 5);
                    (twoFolders, CallGetChildren None);
                    (twoFolders, CallDispose) ] sampleProvider)
     = Some 0.
Proof.
  split; [reflexivity|].
  destruct (subscriptions_frozen_after_initialize sampleCategoryTreeNodes
              sampleNodeChildren
              [ (oneFolder, CallInitialize 5);
                (twoFolders, CallGetChildren None);
                (twoFolders, CallDispose) ] sampleProvider eq_refl)
    as [Hm _].
  rewrite Hm. reflexivity.
Defined.

Lemma first_initialize_subscriptions_witness :
  length
    (_disposables
       (fst (initialize twoFolders 0
               (sampleRun [ (twoFolders, CallGetChildren None);
                            (twoFolders, CallRefresh None) ]
                  (constructor twoFolders sampleTelemetry)))))
  = 11.
Proof.
  destruct (first_initialize_subscriptions sampleCategoryTreeNodes
              sampleNodeChildren twoFolders sampleTelemetry
              [ (twoFolders, CallGetChildren None);
                (twoFolders, CallRefresh None) ]
              twoFolders 0 eq_refl)
    as (_ & _ & _ & Hl & _).
  exact Hl.
Defined.

Lemma getChildren_before_initialize_witness :
  sampleGetChildren twoFolders (Some (folderNode 0 folderWithRemote))
    (sampleRun [ (twoFolders, CallRefresh None); (twoFolders, CallDispose) ]
       (constructor twoFolders sampleTelemetry))
  = (sampleRun [ (twoFolders, CallRefresh None); (twoFolders, CallDispose) ]
       (constructor twoFolders sampleTelemetry),
     Ok [placeholder PRCategoryActionType.NoGitRepositories]).
Proof.
  pose proof (getChildren_before_initialize sampleCategoryTreeNodes
                sampleNodeChildren twoFolders sampleTelemetry
                [ (twoFolders, CallRefresh None); (twoFolders, CallDispose) ]
                twoFolders (Some (folderNode 0 folderWithRemote)) eq_refl)
    as E.
  cbv zeta in E. rewrite E. reflexivity.
Defined.

Lemma getChildren_while_initializing_witness :
  sampleGetChildren
    (worldOf PRManagerState.Initializing [folderWithRemote; folderWithoutRemote])
    None sampleProvider
  = (sampleProvider, Ok [placeholder PRCategoryActionType.Initializing]).
Proof.
  exact (getChildren_while_initializing sampleCategoryTreeNodes
           sampleNodeChildren
           (worldOf PRManagerState.Initializing
              [folderWithRemote; folderWithoutRemote])
           None sampleProvider 0 eq_refl eq_refl).
Defined.

Lemma classification_never_invalidated_witness :
  _isVSO (sampleStep twoFolders (CallGetChildren None) sampleProvider)
  = Some false
  /\ _isVSO
       (sampleRun
          [ (withProbe (Ok workspacesAuthority) twoFolders, CallGetChildren None);
            (withProbe (Throw networkDown) oneFolder, CallGetChildren None) ]
          (sampleStep twoFolders (CallGetChildren None) sampleProvider))
     = Some false.
Proof.
  assert (H : _isVSO (sampleStep twoFolders (CallGetChildren None) sampleProvider)
              = Some false) by (vm_compute; reflexivity).
  split; [exact H|].
  exact (proj1 (classification_never_invalidated sampleCategoryTreeNodes
                  sampleNodeChildren
                  [ (withProbe (Ok workspacesAuthority) twoFolders,
                     CallGetChildren None);
                    (withProbe (Throw networkDown) oneFolder,
                     CallGetChildren None) ]
                  (sampleStep twoFolders (CallGetChildren None) sampleProvider)
                  false H)).
Defined.

Lemma generations_share_classification_witness :
  exists b,
    Forall (fun r => exists oid view uri fm telemetry,
              r = WorkspaceFolderNode oid view uri fm telemetry b)
      ([folderNode 0 folderWithRemote; folderNode 1 folderWithoutRemote]
       ++ [folderNode 2 folderWithRemote; folderNode 3 folderWithoutRemote]).
Proof.
  assert (Hi1 : installsGeneration twoFolders sampleProvider = true)
    by (vm_compute; reflexivity).
  assert (HG1 : snd (sampleGetChildren twoFolders None sampleProvider)
                = Ok [ folderNode 0 folderWithRemote;
                       folderNode 1 folderWithoutRemote ])
    by (vm_compute; reflexivity).
  assert (Hi2 : installsGeneration
                  (withProbe (Ok workspacesAuthority) twoFolders)
                  (sampleRun [(twoFolders, CallRefresh None)]
                     (sampleStep twoFolders (CallGetChildren None)
                        sampleProvider)) = true)
    by (vm_compute; reflexivity).
  assert (HG2 : snd (sampleGetChildren
                       (withProbe (Ok workspacesAuthority) twoFolders) None
                       (sampleRun [(twoFolders, CallRefresh None)]
                          (sampleStep twoFolders (CallGetChildren None)
                             sampleProvider)))
                = Ok [ folderNode 2 folderWithRemote;
                       folderNode 3 folderWithoutRemote ])
    by (vm_compute; reflexivity).
  exact (generations_share_classification sampleCategoryTreeNodes
           sampleNodeChildren twoFolders sampleProvider
           [(twoFolders, CallRefresh None)]
           (withProbe (Ok workspacesAuthority) twoFolders)
           [folderNode 0 folderWithRemote; folderNode 1 folderWithoutRemote]
           [folderNode 2 folderWithRemote; folderNode 3 folderWithoutRemote]
           Hi1 HG1 Hi2 HG2).
Defined.

Lemma tracked_generation_outlives_dispose_witness :
  disposeCount
    (disposeCalls
       (sampleRun
          [ (twoFolders, CallDispose);
            (twoFolders, CallGetChildren (Some (folderNode 0 folderWithRemote)));
            (worldOf PRManagerState.Initializing [folderWithRemote],
             CallGetChildren None) ]
          (sampleStep twoFolders (CallGetChildren None)
             (sampleRun [(twoFolders, CallInitialize 0)]
                (constructor twoFolders sampleTelemetry)))))
    (NodeDisposable (folderNode 0 folderWithRemote))
  = 0.
Proof.
  assert (Hi : installsGeneration twoFolders
                 (sampleRun [(twoFolders, CallInitialize 0)]
                    (constructor twoFolders sampleTelemetry)) = true)
    by (vm_compute; reflexivity).
  assert (HG : snd (sampleGetChildren twoFolders None
                      (sampleRun [(twoFolders, CallInitialize 0)]
                         (constructor twoFolders sampleTelemetry)))
               = Ok [ folderNode 0 folderWithRemote;
                      folderNode 1 folderWithoutRemote ])
    by (vm_compute; reflexivity).
  assert (Hl : noSubtreePass sampleCategoryTreeNodes sampleNodeChildren
                 [ (twoFolders, CallDispose);
                   (twoFolders,
                    CallGetChildren (Some (folderNode 0 folderWithRemote)));
                   (worldOf PRManagerState.Initializing [folderWithRemote],
                    CallGetChildren None) ]
                 (sampleStep twoFolders (CallGetChildren None)
                    (sampleRun [(twoFolders, CallInitialize 0)]
                       (constructor twoFolders sampleTelemetry))) = true)
    by (vm_compute; reflexivity).
  exact (proj1 (tracked_generation_outlives_dispose sampleCategoryTreeNodes
                  sampleNodeChildren twoFolders sampleTelemetry
                  [(twoFolders, CallInitialize 0)] twoFolders
                  [ (twoFolders, CallDispose);
                    (twoFolders,
                     CallGetChildren (Some (folderNode 0 folderWithRemote)));
                    (worldOf PRManagerState.Initializing [folderWithRemote],
                     CallGetChildren None) ]
                  [folderNode 0 folderWithRemote; folderNode 1 folderWithoutRemote]
                  Hi HG Hl (folderNode 0 folderWithRemote)
                  (or_introl eq_refl))).
Defined.

Lemma stale_generation_disposed_every_pass_witness :
  disposeCount
    (disposeCalls
       (rootPasses sampleCategoryTreeNodes sampleNodeChildren
          [oneFolder; oneFolder; oneFolder]
          (sampleStep twoFolders (CallGetChildren None)
             (sampleRun [(twoFolders, CallInitialize 0)]
                (constructor twoFolders sampleTelemetry)))))
    (NodeDisposable (folderNode 1 folderWithoutRemote))
  = 3.
Proof.
  assert (Hi : installsGeneration twoFolders
                 (sampleRun [(twoFolders, CallInitialize 0)]
                    (constructor twoFolders sampleTelemetry)) = true)
    by (vm_compute; reflexivity).
  assert (HG : snd (sampleGetChildren twoFolders None
                      (sampleRun [(twoFolders, CallInitialize 0)]
                         (constructor twoFolders sampleTelemetry)))
               = Ok [ folderNode 0 folderWithRemote;
                      folderNode 1 folderWithoutRemote ])
    by (vm_compute; reflexivity).
  assert (Hws : allDisposeWithoutInstalling sampleCategoryTreeNodes
                  sampleNodeChildren [oneFolder; oneFolder; oneFolder]
                  (sampleStep twoFolders (CallGetChildren None)
                     (sampleRun [(twoFolders, CallInitialize 0)]
                        (constructor twoFolders sampleTelemetry))) = true)
    by (vm_compute; reflexivity).
  exact (proj2 (stale_generation_disposed_every_pass sampleCategoryTreeNodes
                  sampleNodeChildren twoFolders sampleTelemetry
                  [(twoFolders, CallInitialize 0)] twoFolders
                  [oneFolder; oneFolder; oneFolder]
                  [folderNode 0 folderWithRemote; folderNode 1 folderWithoutRemote]
                  Hi HG Hws)
               (folderNode 1 folderWithoutRemote)
               (or_intror (or_introl eq_refl))).
Defined.

Lemma getChildren_throws_only_foreign_errors_witness :
  snd (sampleGetChildren (withProbe (Throw networkDown) twoFolders) None
         sampleProvider) = Throw networkDown
  /\ ((@None TreeNode = None
       /\ (asExternalUri (withProbe (Throw networkDown) twoFolders)
             (callbackUriOf (withProbe (Throw networkDown) twoFolders))
           = Throw networkDown
           \/ exists fm b,
                sampleCategoryTreeNodes
                  (withProbe (Throw networkDown) twoFolders) fm
                  (_telemetry sampleProvider) b (_view sampleProvider)
                = Throw networkDown))
      \/ (exists node, None = Some node
                       /\ sampleNodeChildren
                            (withProbe (Throw networkDown) twoFolders) node
                          = Throw networkDown)).
Proof.
  assert (H : snd (sampleGetChildren (withProbe (Throw networkDown) twoFolders)
                     None sampleProvider) = Throw networkDown)
    by (vm_compute; reflexivity).
  split; [exact H|].
  exact (getChildren_throws_only_foreign_errors sampleCategoryTreeNodes
           sampleNodeChildren (withProbe (Throw networkDown) twoFolders)
           None sampleProvider networkDown H).
Defined.

Lemma isVSO_retries_after_every_rejection_witness :
  probeCalls
    (fst (isVSO_each
            [ withProbe (Throw networkDown) twoFolders;
              withProbe (Throw networkDown) oneFolder ]
            sampleProvider))
  = probeCalls sampleProvider + 2.
Proof.
  assert (Hall : Forall
                   (fun w => exists e,
                      asExternalUri w (callbackUriOf w) = Throw e)
                   [ withProbe (Throw networkDown) twoFolders;
                     withProbe (Throw networkDown) oneFolder ])
    by (repeat constructor; exists networkDown; reflexivity).
  exact (proj1 (proj2 (isVSO_retries_after_every_rejection
                         [ withProbe (Throw networkDown) twoFolders;
                           withProbe (Throw networkDown) oneFolder ]
                         sampleProvider eq_refl Hall))).
Defined.

Lemma isVSO_classifies_by_suffix_witness :
  snd (isVSO (withProbe (Ok workspacesAuthority) twoFolders) sampleProvider)
  = Ok true.
Proof.
  apply (proj1 (isVSO_classifies_by_suffix
                  (withProbe (Ok workspacesAuthority) twoFolders)
                  sampleProvider workspacesAuthority eq_refl eq_refl)).
  exists "online.", "workspaces.github.com".
  split; [left; reflexivity | reflexivity].
Defined.

Lemma configurePRViewlet_before_initialize_witness :
  snd (configurePRViewlet twoFolders "GitHub" "vscode-pull-request-github"
         pickLast
         (sampleRun [(twoFolders, CallGetChildren None)]
            (constructor twoFolders sampleTelemetry)))
  = Throw TypeError.
Proof.
  pose proof (configurePRViewlet_before_initialize sampleCategoryTreeNodes
                sampleNodeChildren twoFolders sampleTelemetry
                [(twoFolders, CallGetChildren None)] twoFolders
                "GitHub" "vscode-pull-request-github" pickLast eq_refl) as E.
  cbv zeta in E. rewrite E. reflexivity.
Defined.

Lemma configurePRViewlet_offers_and_runs_witness :
  _prManager sampleProvider = Some 0
  /\ In "Sign out of GitHub..."
       (configurationItems
          (PRManagerState.eqb
             (PullRequestManager.state (managers twoFolders 0))
             PRManagerState.RepositoriesLoaded))
  /\ snd (configurePRViewlet
            (worldOf PRManagerState.NeedsAuthentication [folderWithRemote])
            "GitHub" "vscode-pull-request-github" (fun _ => None)
            sampleProvider)
     = Ok None.
Proof.
  split; [reflexivity|]. split.
  - destruct (configurePRViewlet_offers_and_runs twoFolders "GitHub"
                "vscode-pull-request-github" pickLast sampleProvider 0
                eq_refl) as (_ & Hitems & _).
    apply Hitems. reflexivity.
  - destruct (configurePRViewlet_offers_and_runs
                (worldOf PRManagerState.NeedsAuthentication [folderWithRemote])
                "GitHub" "vscode-pull-request-github" (fun _ => None)
                sampleProvider 0 eq_refl) as (_ & _ & Hnone & _).
    apply Hnone. reflexivity.
Defined.
